(** * Pipeline orchestrator of [script_generator/scripts/analyze_video.py]

    A shallow embedding of [analyze_video], [run_thread], [log_progress] and
    [log_performance].  The orchestrator is sequential Python code that
    drives threads, queues and callbacks; it is embedded in a state and
    exception monad over a [World] that holds the application state, the
    queues, the thread bookkeeping and a trace of the observable actions.

    External collaborators (stage workers, the video probe, the output
    folder preparer, the clock) are not part of the file under study; they
    are gathered in the record [Env] and every theorem quantifies over
    them.  The figures of the performance report are read as rationals
    ([Q]); a division raises [ZeroDivisionError] on a zero divisor, as
    Python does.  The monitor turns its floats into a text, where their
    rounding shows: its arithmetic and the range of [time.gmtime] are those
    of a [Platform], and every theorem on the monitor quantifies over it. *)

From Stdlib Require Import List String Ascii ZArith QArith Qround Bool Lia.
Import ListNotations.

(** ** Data model *)

(** A Python exception, identified by its message: an instance of
    [Exception], the class that the handlers of lines 108 and 160 catch.
    [KeyboardInterrupt] and [SystemExit], which are delivered from outside
    and pass both handlers, are not outcomes of this model. *)
Definition exn := string.

Definition ZeroDivisionError : exn := "ZeroDivisionError"%string.
Definition AttributeError : exn := "AttributeError"%string.
Definition OverflowError : exn := "OverflowError"%string.

(** [state.video_info]: the facts the orchestrator reads. *)
Record VideoInfo := {
  total_frames : Z;
  fps : Q;
  is_vr : bool;
  is_fisheye : bool
}.

(** Modelled from the spec: [AnalyzeFrameTask] (tasks.py is not part of the
    sources).  A unit of work carries a [profile], a mapping from a
    stage key to the time that stage spent on the unit; the mapping keeps
    insertion order, as a Python dict does. *)
Record AnalyzeFrameTask := {
  frame_pos : Z;
  profile : list (string * Q)
}.

(** What travels through a queue: a unit, or Python's [None], the
    end-of-stream sentinel. *)
Definition item := option AnalyzeFrameTask.

(** Modelled from the spec: [AnalyzeVideoTask], the run record. *)
Record AnalyzeVideoTask := {
  start_time : Q;
  end_time : Q;
  task_profile : list (string * Q)
}.

(** Modelled from the spec: [ProgressMessage], the payload handed to the
    progress sink. *)
Record ProgressMessage := {
  process : string;
  frames_processed : Z;
  pm_total_frames : Z;
  eta : string
}.

(** [AppState]: the fields [analyze_video] touches.  [update_ui] is the
    caller supplied progress sink; it may be absent, and a call either returns
    or raises. *)
Record AppState := {
  video_path : string;
  video_reader : string;
  video_info : VideoInfo;
  analyze_task : AnalyzeVideoTask;
  update_ui : option (ProgressMessage -> option exn)
}.

Definition OPENGL_READER : string := "FFmpeg + OpenGL (Windows)"%string.
Definition FFMPEG_READER : string := "FFmpeg"%string.

Inductive TaskProcessorTypes := VIDEO | OPENGL | YOLO | YOLO_ANALYSIS.

Inductive queue_id := opengl_q | yolo_q | analysis_q | result_q.

Definition kind_eqb (a b : TaskProcessorTypes) : bool :=
  match a, b with
  | VIDEO, VIDEO | OPENGL, OPENGL | YOLO, YOLO
  | YOLO_ANALYSIS, YOLO_ANALYSIS => true
  | _, _ => false
  end.

Definition queue_eqb (a b : queue_id) : bool :=
  match a, b with
  | opengl_q, opengl_q | yolo_q, yolo_q | analysis_q, analysis_q
  | result_q, result_q => true
  | _, _ => false
  end.

(** A [queue.Queue]: its bound ([maxsize <= 0] means unbounded) and the
    underlying deque, oldest item first.  The deque of the model keeps every
    item ever put: the orchestrator only looks at a queue (to put the
    sentinel, or to read [result_q.queue]) at moments when no consumer of
    that queue has taken anything the look depends on. *)
Record Queue := {
  maxsize : Z;
  queue : list item
}.

(** A stage worker object as the orchestrator wires it. *)
Record Worker := {
  kind : TaskProcessorTypes;
  input_queue : option queue_id;
  output_queue : queue_id
}.

(** What one run of a stage worker amounts to, seen from outside: the items
    it pushed downstream, the exception it caught and stored (if any), and
    whether its thread terminates at all. *)
Record WorkerRun := {
  pushed : list item;
  exception : option exn;
  terminates : bool
}.

(** The figures of the performance report. *)
Record Report := {
  r_sequential : bool;
  r_video_reader : string;
  r_total_frames : Z;
  r_video_duration : Q;
  r_avg_processing_fps : Q;
  r_realtime_percentage : Q;
  r_total_pipeline_time : Q;
  r_stages : list (string * Q * Q)
}.

(** Observable actions, in the order the orchestrator performs them. *)
Inductive event :=
| log_info (msg : string)
| log_warn (msg : string)
| log_error (msg : string)
| ev_output_folder (path : string)
| ev_set_video_info
| ev_queue (q : queue_id) (size : Z)
| ev_worker (w : Worker)
| ev_monitor_start
| ev_start (k : TaskProcessorTypes)
| ev_join (k : TaskProcessorTypes) (timeout : option Z)
| ev_put (q : queue_id) (it : item)
| ev_check_exception (k : TaskProcessorTypes)
| ev_stop_set
| ev_report (r : Report)
| ev_update_ui (m : ProgressMessage)
| log_thread_done (thread_name : TaskProcessorTypes)
| ev_status_line (n : Z) (opengl_size : option Z) (yolo_size analysis_size : Z).

(** ** External collaborators *)

Record Env := {
  SEQUENTIAL_MODE : bool;
  QUEUE_MAXSIZE : Z;
  (** [check_create_output_folder(path)]: returns or raises. *)
  check_create_output_folder : string -> option exn;
  (** [state.set_video_info()]: probes the video or raises. *)
  set_video_info : string -> exn + VideoInfo;
  (** [AnalyzeVideoTask()] reads the clock for [start_time]. *)
  clock_start : Q;
  (** [time.time()] at the end of the run. *)
  clock_end : Q;
  (** The profile the stage workers have accumulated on
      [state.analyze_task] by the end of the run. *)
  run_profile : list (string * Q);
  (** Constructors of the queues and of the workers may raise. *)
  queue_init : queue_id -> option exn;
  worker_init : TaskProcessorTypes -> option exn;
  (** [Thread.start()] of the monitor and of a worker may raise. *)
  monitor_start : option exn;
  thread_start_fails : TaskProcessorTypes -> option exn;
  (** The behaviour of a stage worker on the items of its input queue. *)
  worker_run : TaskProcessorTypes -> AppState -> list item -> WorkerRun;
  (** Whether a started, not yet joined worker is still running when the
      failure handler asks [is_alive()]. *)
  still_running : TaskProcessorTypes -> bool
}.

(** ** The world and its monad *)

(** [state] is the shared [AppState] object; [trace] the actions of the
    thread at hand so far, oldest first (the orchestrator and the monitor
    run in two threads, and each is followed on a trace of its own);
    [threads] the local variable of that name; [started] the
    workers whose [start()] succeeded and [finished] the workers whose thread
    has terminated, each with the exception it stored (newest first). *)
Record World := {
  state : AppState;
  trace : list event;
  queues : queue_id -> Queue;
  log_thread_stop_event : bool;
  threads : list (option Worker);
  started : list TaskProcessorTypes;
  finished : list (TaskProcessorTypes * option exn)
}.

Inductive Outcome (A : Type) :=
| Return (a : A)
| Raise (e : exn)
| Hang.

Arguments Return {A} a.
Arguments Raise {A} e.
Arguments Hang {A}.

Definition M (A : Type) := World -> Outcome A * World.

Definition ret {A} (a : A) : M A := fun w => (Return a, w).

Definition bind {A B} (m : M A) (f : A -> M B) : M B :=
  fun w =>
    match m w with
    | (Return a, w') => f a w'
    | (Raise e, w') => (Raise e, w')
    | (Hang, w') => (Hang, w')
    end.

Definition raise {A} (e : exn) : M A := fun w => (Raise e, w).

Definition hang {A} : M A := fun w => (Hang, w).

(** [try: body except Exception as e: handler e]; every [exn] is an
    instance of [Exception]. *)
Definition try_except {A} (body : M A) (handler : exn -> M A) : M A :=
  fun w =>
    match body w with
    | (Raise e, w') => handler e w'
    | r => r
    end.

Definition get : M World := fun w => (Return w, w).

Definition modify (f : World -> World) : M unit := fun w => (Return tt, f w).

Declare Scope monad_scope.
Delimit Scope monad_scope with monad.
Notation "x <- m ;; k" := (bind m (fun x => k))
  (at level 61, m at next level, right associativity) : monad_scope.
Notation "m ;; k" := (bind m (fun _ => k))
  (at level 61, right associativity) : monad_scope.
Open Scope monad_scope.

Definition set_state (f : AppState -> AppState) (w : World) : World :=
  {| state := f (state w); trace := trace w; queues := queues w;
     log_thread_stop_event := log_thread_stop_event w;
     threads := threads w; started := started w; finished := finished w |}.

Definition add_event (e : event) (w : World) : World :=
  {| state := state w; trace := trace w ++ [e]; queues := queues w;
     log_thread_stop_event := log_thread_stop_event w;
     threads := threads w; started := started w; finished := finished w |}.

Definition set_queue (q : queue_id) (v : Queue) (w : World) : World :=
  {| state := state w; trace := trace w;
     queues := fun q' => if queue_eqb q q' then v else queues w q';
     log_thread_stop_event := log_thread_stop_event w;
     threads := threads w; started := started w; finished := finished w |}.

Definition set_stop (w : World) : World :=
  {| state := state w; trace := trace w; queues := queues w;
     log_thread_stop_event := true;
     threads := threads w; started := started w; finished := finished w |}.

Definition set_threads (l : list (option Worker)) (w : World) : World :=
  {| state := state w; trace := trace w; queues := queues w;
     log_thread_stop_event := log_thread_stop_event w;
     threads := l; started := started w; finished := finished w |}.

Definition add_started (k : TaskProcessorTypes) (w : World) : World :=
  {| state := state w; trace := trace w; queues := queues w;
     log_thread_stop_event := log_thread_stop_event w;
     threads := threads w; started := k :: started w;
     finished := finished w |}.

Definition add_finished (k : TaskProcessorTypes) (e : option exn)
    (w : World) : World :=
  {| state := state w; trace := trace w; queues := queues w;
     log_thread_stop_event := log_thread_stop_event w;
     threads := threads w; started := started w;
     finished := (k, e) :: finished w |}.

Definition emit (e : event) : M unit := modify (add_event e).

(** A call to a collaborator that returns nothing or raises. *)
Definition call (r : option exn) : M unit :=
  match r with
  | Some e => raise e
  | None => ret tt
  end.

Definition with_video_reader (r : string) (s : AppState) : AppState :=
  {| video_path := video_path s; video_reader := r;
     video_info := video_info s; analyze_task := analyze_task s;
     update_ui := update_ui s |}.

Definition with_video_info (v : VideoInfo) (s : AppState) : AppState :=
  {| video_path := video_path s; video_reader := video_reader s;
     video_info := v; analyze_task := analyze_task s;
     update_ui := update_ui s |}.

Definition with_analyze_task (t : AnalyzeVideoTask) (s : AppState)
    : AppState :=
  {| video_path := video_path s; video_reader := video_reader s;
     video_info := video_info s; analyze_task := t;
     update_ui := update_ui s |}.

(** ** Python primitives *)

(** Computations that touch no state: arithmetic that may raise. *)
Definition obind {A B} (m : Outcome A) (f : A -> Outcome B) : Outcome B :=
  match m with
  | Return a => f a
  | Raise e => Raise e
  | Hang => Hang
  end.

Notation "x <~ m ;; k" := (obind m (fun x => k))
  (at level 61, m at next level, right associativity) : monad_scope.

Definition lift {A} (m : Outcome A) : M A := fun w => (m, w).

(** [a / b] on the figures of the report, read as rationals: raises on a
    zero divisor. *)
Definition py_div (a b : Q) : Outcome Q :=
  if Qeq_bool b 0 then Raise ZeroDivisionError else Return (a / b).

(** [a > b]. *)
Definition Qgtb (a b : Q) : bool := negb (Qle_bool a b).

(** [s.endswith(suffix)]. *)
Definition endswith (s suffix : string) : bool :=
  let n := String.length s in
  let m := String.length suffix in
  (m <=? n)%nat && String.eqb (substring (n - m) m s) suffix.

(** [for x in l: f x]. *)
Fixpoint for_each {A} (l : list A) (f : A -> M unit) : M unit :=
  match l with
  | [] => ret tt
  | x :: l' => f x ;; for_each l' f
  end.

Fixpoint map_o {A B} (f : A -> Outcome B) (l : list A) : Outcome (list B) :=
  match l with
  | [] => Return []
  | x :: l' => y <~ f x ;; ys <~ map_o f l' ;; Return (y :: ys)
  end.

(** ** Queues and threads *)

Definition push (q : queue_id) (its : list item) (w : World) : World :=
  set_queue q {| maxsize := maxsize (queues w q);
                 queue := queue (queues w q) ++ its |} w.

(** [Queue.full()]. *)
Definition full (q : Queue) : bool :=
  (0 <? maxsize q)%Z && (maxsize q <=? Z.of_nat (List.length (queue q)))%Z.

(** [queue.Queue(maxsize=size)]. *)
Definition new_queue (env : Env) (q : queue_id) (size : Z) : M unit :=
  call (queue_init env q) ;;
  modify (set_queue q {| maxsize := size; queue := [] |}) ;;
  emit (ev_queue q size).

(** [q.put(it)] from the orchestrator: blocks for ever on a full queue that
    nobody drains. *)
Definition queue_put (q : queue_id) (it : item) : M unit :=
  w <- get ;;
  if full (queues w q) then hang
  else modify (push q [it]) ;; emit (ev_put q it).

(** Constructor of a stage worker. *)
Definition new_worker (env : Env) (k : TaskProcessorTypes)
    (inp : option queue_id) (out : queue_id) : M Worker :=
  call (worker_init env k) ;;
  let t := {| kind := k; input_queue := inp; output_queue := out |} in
  emit (ev_worker t) ;;
  ret t.

Definition mem_kind (k : TaskProcessorTypes) (l : list TaskProcessorTypes)
    : bool :=
  existsb (kind_eqb k) l.

Definition input_items (w : World) (t : Worker) : list item :=
  match input_queue t with
  | None => []
  | Some q => queue (queues w q)
  end.

(** [thread.start()].  On [None] the attribute lookup fails. *)
Definition thread_start (env : Env) (thread : option Worker) : M unit :=
  match thread with
  | None => raise AttributeError
  | Some t =>
      call (thread_start_fails env (kind t)) ;;
      modify (add_started (kind t)) ;;
      emit (ev_start (kind t))
  end.

(** [thread.join()]: waits, without bound, until the worker has terminated.
    By then the worker has pushed all its items into its own output queue
    and has stored the exception it caught, if any. *)
Definition thread_join (env : Env) (thread : option Worker) : M unit :=
  match thread with
  | None => raise AttributeError
  | Some t =>
      w <- get ;;
      let r := worker_run env (kind t) (state w) (input_items w t) in
      if terminates r then
        modify (push (output_queue t) (pushed r)) ;;
        modify (add_finished (kind t) (exception r)) ;;
        emit (ev_join (kind t) None)
      else hang
  end.

(** [thread.join(timeout=n)]: returns after at most [n] seconds. *)
Definition thread_join_timeout (t : Worker) (n : Z) : M unit :=
  emit (ev_join (kind t) (Some n)).

(** [thread.is_alive()]. *)
Definition is_alive (env : Env) (w : World) (t : Worker) : bool :=
  mem_kind (kind t) (started w)
  && negb (mem_kind (kind t) (map fst (finished w)))
  && still_running env (kind t).

Fixpoint stored_exception (k : TaskProcessorTypes)
    (l : list (TaskProcessorTypes * option exn)) : option exn :=
  match l with
  | [] => None
  | (k', e) :: l' => if kind_eqb k k' then e else stored_exception k l'
  end.

(** Modelled from the spec: [check_exception()] of a stage worker
    (abstract_task_processor.py is not part of the sources).  The worker
    stores the error its transform raised; the query returns the stored
    error, or none if the worker completed cleanly. *)
Definition check_exception (t : Worker) : M (option exn) :=
  emit (ev_check_exception (kind t)) ;;
  w <- get ;;
  ret (stored_exception (kind t) (finished w)).

(** [state.update_ui(msg)]. *)
Definition call_update_ui (f : ProgressMessage -> option exn)
    (m : ProgressMessage) : M unit :=
  emit (ev_update_ui m) ;;
  call (f m).

(** ** [log_performance] *)

(** [hasattr(task, 'profile')]: [None] has no such attribute, a frame task
    has one. *)
Definition has_profile (it : item) : bool :=
  match it with
  | Some _ => true
  | None => false
  end.

Fixpoint tasks_of (l : list item) : list AnalyzeFrameTask :=
  match l with
  | [] => []
  | Some t :: l' => t :: tasks_of l'
  | None :: l' => tasks_of l'
  end.

(** [x / n if n > 0 else 0.0]. *)
Definition div_if_positive (x n : Q) : Outcome Q :=
  if Qgtb n 0 then py_div x n else Return 0.

(** One line of the report: the stage key, its average time and the implied
    rate [1 / avg_time if avg_time > 0 else 0]. *)
Definition stage_line (total_frames : Z) (entry : string * Q)
    : Outcome (string * Q * Q) :=
  avg_time <~ div_if_positive (snd entry) (inject_Z total_frames) ;;
  rate <~ div_if_positive 1 avg_time ;;
  Return (fst entry, avg_time, rate).

(** [aggregated_times[key]["total_time"] += total_time], creating the
    entry on first sight; insertion order is kept. *)
Fixpoint aggregate_add (key : string) (t : Q) (agg : list (string * (Q * Z)))
    : list (string * (Q * Z)) :=
  match agg with
  | [] => [(key, (0 + t, (0 + 1)%Z))]
  | (k, (tot, cnt)) :: agg' =>
      if String.eqb k key then (k, (tot + t, (cnt + 1)%Z)) :: agg'
      else (k, (tot, cnt)) :: aggregate_add key t agg'
  end.

Definition is_duration (entry : string * Q) : bool :=
  endswith (fst entry) "_duration".

Definition aggregate_task (agg : list (string * (Q * Z)))
    (task : AnalyzeFrameTask) : list (string * (Q * Z)) :=
  fold_left
    (fun a entry =>
       if is_duration entry then aggregate_add (fst entry) (snd entry) a
       else a)
    (profile task) agg.

Definition aggregated_times (tasks : list AnalyzeFrameTask)
    : list (string * (Q * Z)) :=
  fold_left aggregate_task tasks [].

(** The figures [log_performance] computes, lines 166-221. *)
Definition performance_report (sequential : bool) (s : AppState)
    (results : list item) : Outcome Report :=
  let analyze_task := analyze_task s in
  let tasks := filter has_profile results in
  let total_frames := Z.of_nat (List.length tasks) in
  let total_pipeline_time := end_time analyze_task - start_time analyze_task in
  video_duration <~ py_div (inject_Z total_frames) (fps (video_info s)) ;;
  avg_processing_fps <~ py_div (inject_Z total_frames) total_pipeline_time ;;
  let realtime_percentage := avg_processing_fps / 60 * 100 in
  stages <~
    (if sequential then
       map_o (stage_line total_frames)
             (filter is_duration (task_profile analyze_task))
     else
       map_o (stage_line total_frames)
             (map (fun e => (fst e, fst (snd e)))
                  (aggregated_times (tasks_of tasks)))) ;;
  Return {| r_sequential := sequential;
            r_video_reader := video_reader s;
            r_total_frames := total_frames;
            r_video_duration := video_duration;
            r_avg_processing_fps := avg_processing_fps;
            r_realtime_percentage := realtime_percentage;
            r_total_pipeline_time := total_pipeline_time;
            r_stages := stages |}.

(** [log_performance(state, results_queue)]: the report goes to the log. *)
Definition log_performance (env : Env) (results_queue : queue_id) : M unit :=
  w <- get ;;
  r <- lift (performance_report (SEQUENTIAL_MODE env) (state w)
               (queue (queues w results_queue))) ;;
  emit (ev_report r).

(** ** [analyze_video] *)

(** Modelled from the spec: the constructor [AnalyzeVideoTask()] opens the
    run record with the current time as its start time. *)
Definition new_analyze_task (env : Env) : AnalyzeVideoTask :=
  {| start_time := clock_start env; end_time := 0; task_profile := [] |}.

(** [state.set_video_info()]. *)
Definition do_set_video_info (env : Env) : M unit :=
  w <- get ;;
  emit ev_set_video_info ;;
  match set_video_info env (video_path (state w)) with
  | inl e => raise e
  | inr v => modify (set_state (with_video_info v))
  end.

Definition WARN_2D : string :=
  "Disabled OpenGL in the pipeline as it's not needed for 2D videos"%string.
Definition WARN_FISHEYE : string :=
  "Disabled OpenGL as fisheye is not yet supported with the opengl feature"%string.

(** Lines 28-42: the output folder, the probe, and the choice of the reader.
    The result is [use_open_gl]. *)
Definition resolve_video_reader (env : Env) : M bool :=
  w <- get ;;
  emit (ev_output_folder (video_path (state w))) ;;
  call (check_create_output_folder env (video_path (state w))) ;;
  do_set_video_info env ;;
  w <- get ;;
  (if String.eqb (video_reader (state w)) OPENGL_READER then
     (if negb (is_vr (video_info (state w))) then
        emit (log_warn WARN_2D) ;;
        modify (set_state (with_video_reader FFMPEG_READER))
      else ret tt) ;;
     (if is_fisheye (video_info (state w)) then
        emit (log_warn WARN_FISHEYE) ;;
        modify (set_state (with_video_reader FFMPEG_READER))
      else ret tt)
   else ret tt) ;;
  w <- get ;;
  ret (String.eqb (video_reader (state w)) OPENGL_READER).

(** The four worker variables of lines 53-56; [opengl_thread] may be
    [None]. *)
Record Pipeline := {
  decode_thread : Worker;
  opengl_thread : option Worker;
  yolo_thread : Worker;
  yolo_analysis_thread : Worker
}.

(** Lines 44-64: the run record, the queues, the workers, the monitor.  The
    monitor runs in a thread of its own, of which the orchestrator only
    performs the start; what that thread does is [log_progress] below, and is
    not part of the orchestrator's trace. *)
Definition create_pipeline (env : Env) (use_open_gl : bool) : M Pipeline :=
  modify (set_state (with_analyze_task (new_analyze_task env))) ;;
  new_queue env opengl_q (QUEUE_MAXSIZE env) ;;
  new_queue env yolo_q (QUEUE_MAXSIZE env) ;;
  new_queue env analysis_q (QUEUE_MAXSIZE env) ;;
  new_queue env result_q 0 ;;
  decode <-
    new_worker env VIDEO None (if use_open_gl then opengl_q else yolo_q) ;;
  opengl <-
    (if use_open_gl then
       t <- new_worker env OPENGL (Some opengl_q) yolo_q ;; ret (Some t)
     else ret None) ;;
  yolo <- new_worker env YOLO (Some yolo_q) analysis_q ;;
  yolo_analysis <- new_worker env YOLO_ANALYSIS (Some analysis_q) result_q ;;
  call (monitor_start env) ;;
  emit ev_monitor_start ;;
  ret {| decode_thread := decode; opengl_thread := opengl;
         yolo_thread := yolo; yolo_analysis_thread := yolo_analysis |}.

(** The helper of sequential mode, lines 68-73. *)
Definition run_thread (env : Env) (thread : option Worker)
    (thread_name : TaskProcessorTypes) (out_queue : queue_id) : M unit :=
  thread_start env thread ;;
  thread_join env thread ;;
  queue_put out_queue None ;;
  emit (log_thread_done thread_name).

(** Lines 75-79. *)
Definition run_sequential (env : Env) (use_open_gl : bool) (p : Pipeline)
    : M unit :=
  run_thread env (Some (decode_thread p)) VIDEO opengl_q ;;
  (if use_open_gl then run_thread env (opengl_thread p) OPENGL yolo_q
   else ret tt) ;;
  run_thread env (Some (yolo_thread p)) YOLO analysis_q ;;
  run_thread env (Some (yolo_analysis_thread p)) YOLO_ANALYSIS result_q.

(** Lines 81-90. *)
Definition run_concurrent (env : Env) (use_open_gl : bool) (p : Pipeline)
    : M unit :=
  modify (set_threads
            (if use_open_gl then
               [Some (decode_thread p); opengl_thread p;
                Some (yolo_thread p); Some (yolo_analysis_thread p)]
             else
               [Some (decode_thread p); Some (yolo_thread p);
                Some (yolo_analysis_thread p)])) ;;
  w <- get ;;
  for_each (threads w) (thread_start env) ;;
  w <- get ;;
  for_each (threads w) (thread_join env) ;;
  w <- get ;;
  for_each (threads w)
    (fun thread =>
       match thread with
       | Some t => _ <- check_exception t ;; ret tt
       | None => ret tt
       end).

Definition done_message (s : AppState) : ProgressMessage :=
  {| process := "OBJECT_DETECTION";
     frames_processed := total_frames (video_info s);
     pm_total_frames := total_frames (video_info s);
     eta := "Done" |}.

(** The end of the run, where the workers' accumulated profile is on
    [state.analyze_task] and the end time is written. *)
Definition close_analyze_task (env : Env) (s : AppState) : AppState :=
  with_analyze_task
    {| start_time := start_time (analyze_task s);
       end_time := clock_end env;
       task_profile := run_profile env |} s.

(** Lines 92-106. *)
Definition finish (env : Env) : M (list item) :=
  modify (set_state (close_analyze_task env)) ;;
  modify set_stop ;;
  emit ev_stop_set ;;
  log_performance env result_q ;;
  w <- get ;;
  match update_ui (state w) with
  | Some f => call_update_ui f (done_message (state w))
  | None => ret tt
  end ;;
  w <- get ;;
  ret (queue (queues w result_q)).

(** The body of the [try] block, lines 28-106. *)
Definition analyze_video_try (env : Env) : M (list item) :=
  use_open_gl <- resolve_video_reader env ;;
  p <- create_pipeline env use_open_gl ;;
  (if SEQUENTIAL_MODE env then run_sequential env use_open_gl p
   else run_concurrent env use_open_gl p) ;;
  finish env.

(** The [except Exception as e] block, lines 108-115. *)
Definition analyze_video_except (env : Env) (e : exn) : M (list item) :=
  emit (log_error ("An error occurred during video analysis: " ++ e)) ;;
  modify set_stop ;;
  emit ev_stop_set ;;
  w <- get ;;
  for_each (threads w)
    (fun thread =>
       match thread with
       | Some t =>
           w' <- get ;;
           if is_alive env w' t then thread_join_timeout t 1 else ret tt
       | None => ret tt
       end) ;;
  raise e.

(** The locals of a call: a fresh, cleared stop event, [threads = []], and
    no thread object yet. *)
Definition fresh_locals (w : World) : World :=
  {| state := state w; trace := trace w; queues := queues w;
     log_thread_stop_event := false;
     threads := []; started := []; finished := [] |}.

Definition START_MESSAGE (sequential : bool) : string :=
  ("[OBJECT DETECTION] Starting up pipeline"
   ++ (if sequential then " in sequential mode" else "")
   ++ "...")%string.

Definition analyze_video (env : Env) : M (list item) :=
  modify fresh_locals ;;
  emit (log_info (START_MESSAGE (SEQUENTIAL_MODE env))) ;;
  try_except (analyze_video_try env) (analyze_video_except env).

(** The world a call starts from. *)
Definition initial_world (s : AppState) : World :=
  {| state := s; trace := [];
     queues := fun _ => {| maxsize := 0; queue := [] |};
     log_thread_stop_event := false;
     threads := []; started := []; finished := [] |}.

(** What the caller of [analyze_video(state)] gets. *)
Definition run (env : Env) (s : AppState) : Outcome (list item) * World :=
  analyze_video env (initial_world s).

(** ** [log_progress], the monitor *)

(** What one polling iteration reads: the four queue sizes and the clock. *)
Record Observation := {
  opengl_size : Z;
  yolo_size : Z;
  analysis_size : Z;
  results_size : Z;
  now : Q
}.

(** The value of a float expression of the monitor: a finite number, or an
    infinity ([float('inf')] at line 152, or a quotient too large for a
    float).  No operation of the monitor yields a NaN. *)
Inductive PyFloat :=
| Finite (q : Q)
| PosInf
| NegInf.

(** [x > 0] on floats. *)
Definition float_gt0 (x : PyFloat) : bool :=
  match x with
  | Finite q => Qgtb q 0
  | PosInf => true
  | NegInf => false
  end.

(** [x == 0] on floats. *)
Definition float_is_zero (x : PyFloat) : bool :=
  match x with
  | Finite q => Qeq_bool q 0
  | PosInf | NegInf => false
  end.

(** What the monitor takes from the platform's floats and C library.  The
    values of lines 149-152 are floats, and each operation rounds:
    [float_sub a b] is the float given for [a - b] on two clock readings
    and [float_div a b] the float given for [a / b] with [b] not zero,
    an infinity when the quotient is too large.  Nothing is assumed of the
    rounding but what every float arithmetic gives: the difference has the
    sign of the exact one, zero divided by anything is zero, and a positive
    count divided by a positive float is positive.  [time.gmtime] raises on
    an instant outside the platform's range: [gmtime_error secs] is the
    exception for the whole second [secs], if it is refused; the epoch
    itself is always accepted.  The counts of frames are integers far below
    the largest float, so that their conversion to a float cannot fail. *)
Record Platform := {
  float_sub : Q -> Q -> Q;
  float_sub_sign : forall a b : Q, Qgtb (float_sub a b) 0 = Qgtb (a - b) 0;
  float_div : Q -> Q -> PyFloat;
  float_div_zero : forall b : Q, float_div 0 b = Finite 0;
  float_div_positive :
    forall (n : Z) (b : Q),
      (0 < n)%Z -> Qgtb b 0 = true ->
      float_gt0 (float_div (inject_Z n) b) = true;
  gmtime_error : Z -> option exn;
  gmtime_epoch : gmtime_error 0%Z = None
}.

(** The quotient of a number by a float that is not zero; a finite number
    divided by an infinity is zero. *)
Definition float_quot (p : Platform) (a : Q) (b : PyFloat) : PyFloat :=
  match b with
  | Finite q => float_div p a q
  | PosInf | NegInf => Finite 0
  end.

(** [a / b] for an integer [a] and a float [b]: [ZeroDivisionError] when
    [b] is zero. *)
Definition float_truediv (p : Platform) (a : Z) (b : PyFloat)
    : Outcome PyFloat :=
  if float_is_zero b then Raise ZeroDivisionError
  else Return (float_quot p (inject_Z a) b).

Definition digit (n : Z) : ascii := ascii_of_nat (48 + Z.to_nat n).

Definition two_digits (n : Z) : string :=
  String (digit (n / 10)) (String (digit (n mod 10)) EmptyString).

(** [time.gmtime(t)], as far as [%H:%M:%S] reads it: the whole second the
    instant [t] falls in, or the platform's error.  An infinite [t] is
    refused with [OverflowError] on every platform. *)
Definition gmtime (p : Platform) (t : PyFloat) : Outcome Z :=
  match t with
  | Finite q =>
      match gmtime_error p (Qfloor q) with
      | Some e => Raise e
      | None => Return (Qfloor q)
      end
  | PosInf | NegInf => Raise OverflowError
  end.

(** [time.strftime("%H:%M:%S", tm)]: the time of day of the instant [secs]
    seconds after the epoch. *)
Definition strftime_hms (secs : Z) : string :=
  (two_digits ((secs / 3600) mod 24) ++ ":"
   ++ two_digits ((secs / 60) mod 60) ++ ":"
   ++ two_digits (secs mod 60))%string.

(** [frames_processed / elapsed_time if elapsed_time > 0 else 0]. *)
Definition processing_rate (p : Platform) (frames_processed : Z)
    (elapsed_time : Q) : Outcome PyFloat :=
  if Qgtb elapsed_time 0 then
    float_truediv p frames_processed (Finite elapsed_time)
  else Return (Finite 0).

(** [remaining_frames / processing_rate if processing_rate > 0 else
    float('inf')]. *)
Definition eta_seconds (p : Platform) (remaining_frames : Z) (rate : PyFloat)
    : Outcome PyFloat :=
  if float_gt0 rate then float_truediv p remaining_frames rate
  else Return PosInf.

(** [time.strftime("%H:%M:%S", time.gmtime(eta)) if eta != float('inf')
    else "Calculating..."]. *)
Definition eta_string (p : Platform) (eta : PyFloat) : Outcome string :=
  match eta with
  | PosInf => Return "Calculating..."%string
  | _ => secs <~ gmtime p eta ;; Return (strftime_hms secs)
  end.

(** The argument of the sink at lines 154-159; building it can raise. *)
Definition build_message (p : Platform) (total frames : Z) (eta : PyFloat)
    : Outcome ProgressMessage :=
  text <~ eta_string p eta ;;
  Return {| process := "OBJECT_DETECTION";
            frames_processed := frames;
            pm_total_frames := total;
            eta := text |}.

(** Lines 149-159 as one computation: the message an iteration builds from
    the state, the two counts and the clock. *)
Definition progress_message (p : Platform) (s : AppState) (total frames : Z)
    (now : Q) : Outcome ProgressMessage :=
  let elapsed_time := float_sub p now (start_time (analyze_task s)) in
  rate <~ processing_rate p frames elapsed_time ;;
  let remaining_frames := (total - frames)%Z in
  eta <~ eta_seconds p remaining_frames rate ;;
  build_message p total frames eta.

(** One pass through the body of the [while] loop, lines 133-163.  The rate
    and the ETA are computed before the [try] of line 153; the message is
    built and handed to the sink inside it. *)
Definition log_progress_iteration (p : Platform) (o : Observation) : M unit :=
  w <- get ;;
  let total := total_frames (video_info (state w)) in
  let frames := results_size o in
  emit (ev_status_line frames
          (if String.eqb (video_reader (state w)) OPENGL_READER
           then Some (opengl_size o) else None)
          (yolo_size o) (analysis_size o)) ;;
  (if (total <=? frames)%Z then modify set_stop ;; emit ev_stop_set
   else ret tt) ;;
  match update_ui (state w) with
  | Some f =>
      let elapsed_time :=
        float_sub p (now o) (start_time (analyze_task (state w))) in
      rate <- lift (processing_rate p frames elapsed_time) ;;
      let remaining_frames := (total - frames)%Z in
      eta <- lift (eta_seconds p remaining_frames rate) ;;
      try_except
        (m <- lift (build_message p total frames eta) ;;
         call_update_ui f m)
        (fun e => emit (log_error ("Error in state.update_ui: " ++ e)))
  | None => ret tt
  end.

(** The [while not stop_event.is_set()] loop over the polls that take place
    before the orchestrator sets the event; the monitor may set it first. *)
Fixpoint log_progress (p : Platform) (polls : list Observation) : M unit :=
  match polls with
  | [] => ret tt
  | o :: rest =>
      w <- get ;;
      if log_thread_stop_event w then ret tt
      else log_progress_iteration p o ;; log_progress p rest
  end.

(** ** A concrete pipeline, for evaluation *)

Fixpoint until_sentinel (l : list item) : list AnalyzeFrameTask :=
  match l with
  | Some t :: l' => t :: until_sentinel l'
  | _ => []
  end.

Definition add_duration (key : string) (cost : Q) (t : AnalyzeFrameTask)
    : AnalyzeFrameTask :=
  {| frame_pos := frame_pos t; profile := profile t ++ [(key, cost)] |}.

Definition profile_key (k : TaskProcessorTypes) : string :=
  match k with
  | VIDEO => "video_duration"
  | OPENGL => "opengl_duration"
  | YOLO => "yolo_duration"
  | YOLO_ANALYSIS => "yolo_analysis_duration"
  end.

Definition frame (n : nat) : AnalyzeFrameTask :=
  {| frame_pos := Z.of_nat n; profile := [] |}.

(** Modelled from the spec: a stage worker (section 4.2; the worker classes
    are not part of the sources).  It takes units from its input until the
    sentinel (the first stage produces the frames of the video), records
    its duration under its profile key on each unit, pushes the unit
    downstream, and at the end of its input pushes one sentinel and
    terminates. *)
Definition spec_worker (k : TaskProcessorTypes) (s : AppState)
    (input : list item) : WorkerRun :=
  let units :=
    match k with
    | VIDEO => map frame (seq 0 (Z.to_nat (total_frames (video_info s))))
    | _ => until_sentinel input
    end in
  {| pushed := map (fun t => Some (add_duration (profile_key k) 1 t)) units
               ++ [None];
     exception := None;
     terminates := true |}.

(** Two-frame videos at 25 frames per second. *)
Definition flat_video : VideoInfo :=
  {| total_frames := 2; fps := 25; is_vr := false; is_fisheye := false |}.


Definition fisheye_video : VideoInfo :=
  {| total_frames := 2; fps := 25; is_vr := true; is_fisheye := true |}.

Definition demo_env (sequential : bool) (v : VideoInfo) : Env :=
  {| SEQUENTIAL_MODE := sequential;
     QUEUE_MAXSIZE := 8;
     check_create_output_folder := fun _ => None;
     set_video_info := fun _ => inr v;
     clock_start := 100;
     clock_end := 104;
     run_profile := [];
     queue_init := fun _ => None;
     worker_init := fun _ => None;
     monitor_start := None;
     thread_start_fails := fun _ => None;
     worker_run := spec_worker;
     still_running := fun _ => false |}.

Definition demo_state (reader : string)
    (sink : option (ProgressMessage -> option exn)) : AppState :=
  {| video_path := "video.mp4";
     video_reader := reader;
     video_info :=
       {| total_frames := 0; fps := 0; is_vr := false; is_fisheye := false |};
     analyze_task := {| start_time := 0; end_time := 0; task_profile := [] |};
     update_ui := sink |}.

(** * Vocabulary of the properties *)

(** The total the report shows. *)
Definition total_units (sequential : bool) (s : AppState)
    (results : list item) : Outcome Z :=
  r <~ performance_report sequential s results ;; Return (r_total_frames r).

Definition is_sentinel (it : item) : bool :=
  match it with
  | None => true
  | Some _ => false
  end.

(** The number of completed units in a collection, whatever their profile. *)
Definition count_units (results : list item) : Z :=
  Z.of_nat (List.length results)
  - Z.of_nat (List.length (filter is_sentinel results)).

(** The number of completed units whose profile is not empty. *)
Definition nonempty_profile (it : item) : bool :=
  match it with
  | Some t => match profile t with [] => false | _ :: _ => true end
  | None => false
  end.

Definition count_nonempty_profile (results : list item) : Z :=
  Z.of_nat (List.length (filter nonempty_profile results)).

(** A state as it is when the report is made: probed, with a closed run
    record. *)
Definition reported_state (v : VideoInfo) : AppState :=
  {| video_path := "video.mp4";
     video_reader := FFMPEG_READER;
     video_info := v;
     analyze_task :=
       {| start_time := 100; end_time := 104; task_profile := [] |};
     update_ui := None |}.

(** The number of sentinels in a collection. *)
Definition sentinels (l : list item) : nat :=
  List.length (filter is_sentinel l).

(** The world in which the [try] block starts. *)
Definition start_world (env : Env) (s : AppState) : World :=
  add_event (log_info (START_MESSAGE (SEQUENTIAL_MODE env)))
    (fresh_locals (initial_world s)).

(** The reader the orchestrator settles on, lines 33-40. *)
Definition resolved_reader (reader : string) (v : VideoInfo) : string :=
  if String.eqb reader OPENGL_READER then
    if negb (is_vr v) || is_fisheye v then FFMPEG_READER else OPENGL_READER
  else reader.

(** The state the stage workers are given. *)
Definition pipeline_state (env : Env) (s : AppState) (v : VideoInfo)
    : AppState :=
  {| video_path := video_path s;
     video_reader := resolved_reader (video_reader s) v;
     video_info := v;
     analyze_task := new_analyze_task env;
     update_ui := update_ui s |}.

(** Projections of a trace. *)
Fixpoint stages_created (tr : list event) : list TaskProcessorTypes :=
  match tr with
  | [] => []
  | ev_worker t :: tr' => kind t :: stages_created tr'
  | _ :: tr' => stages_created tr'
  end.

Fixpoint stages_started (tr : list event) : list TaskProcessorTypes :=
  match tr with
  | [] => []
  | ev_start k :: tr' => k :: stages_started tr'
  | _ :: tr' => stages_started tr'
  end.

(** The thread operations of a trace, in order. *)
Definition is_thread_event (ev : event) : bool :=
  match ev with
  | ev_start _ | ev_join _ _ | ev_check_exception _ => true
  | _ => false
  end.


(** Does the trace mention the conversion stage at all? *)
Definition mentions_opengl (ev : event) : bool :=
  match ev with
  | ev_worker t => kind_eqb (kind t) OPENGL
  | ev_start k | ev_join k _ | ev_check_exception k | log_thread_done k =>
      kind_eqb k OPENGL
  | _ => false
  end.

(** Is a warning logged before the first worker is created? *)
Fixpoint warned_before_workers (tr : list event) : bool :=
  match tr with
  | [] => false
  | log_warn _ :: _ => true
  | ev_worker _ :: _ => false
  | _ :: tr' => warned_before_workers tr'
  end.

Definition is_check_exception (ev : event) : bool :=
  match ev with
  | ev_check_exception _ => true
  | _ => false
  end.

(** The worker objects of a [threads] list. *)
Fixpoint workers_of (l : list (option Worker)) : list Worker :=
  match l with
  | [] => []
  | Some t :: l' => t :: workers_of l'
  | None :: l' => workers_of l'
  end.

(** The same collaborators, except that no worker stores an exception. *)
Definition forget_exception (r : WorkerRun) : WorkerRun :=
  {| pushed := pushed r; exception := None; terminates := terminates r |}.

Definition forget_errors (env : Env) : Env :=
  {| SEQUENTIAL_MODE := SEQUENTIAL_MODE env;
     QUEUE_MAXSIZE := QUEUE_MAXSIZE env;
     check_create_output_folder := check_create_output_folder env;
     set_video_info := set_video_info env;
     clock_start := clock_start env;
     clock_end := clock_end env;
     run_profile := run_profile env;
     queue_init := queue_init env;
     worker_init := worker_init env;
     monitor_start := monitor_start env;
     thread_start_fails := thread_start_fails env;
     worker_run := fun k s input => forget_exception (worker_run env k s input);
     still_running := still_running env |}.


(** What each active stage does in a run where all of them terminate: every
    worker sees the items its upstream neighbour pushed. *)
Definition stage_runs (env : Env) (st : AppState) (use_open_gl : bool)
    : list (TaskProcessorTypes * WorkerRun) :=
  let d := worker_run env VIDEO st [] in
  let o := worker_run env OPENGL st (pushed d) in
  let y := worker_run env YOLO st
             (if use_open_gl then pushed o else pushed d) in
  let a := worker_run env YOLO_ANALYSIS st (pushed y) in
  if use_open_gl then
    [(VIDEO, d); (OPENGL, o); (YOLO, y); (YOLO_ANALYSIS, a)]
  else [(VIDEO, d); (YOLO, y); (YOLO_ANALYSIS, a)].


(** A sink that fails on every message. *)
Definition failing_sink (e : exn) : ProgressMessage -> option exn :=
  fun _ => Some e.

(** Is the event compatible with a pipeline of the three stages decode,
    detect and analyze: no conversion worker is created, started, joined or
    queried, and the decoder feeds the detector's queue directly. *)
Definition wired_without_conversion (ev : event) : bool :=
  match ev with
  | ev_worker t =>
      match kind t with
      | VIDEO => queue_eqb (output_queue t) yolo_q
      | OPENGL => false
      | _ => true
      end
  | _ => negb (mentions_opengl ev)
  end.

(** Every started worker has been joined or is in the [threads] list. *)
Definition started_are_tracked (w : World) : bool :=
  forallb
    (fun k =>
       mem_kind k (map fst (finished w))
       || existsb (fun t => kind_eqb (kind t) k) (workers_of (threads w)))
    (started w).

(** The workers the failure handler waits for. *)
Definition handler_joins (env : Env) (w : World) : list Worker :=
  filter (is_alive env w) (workers_of (threads w)).

Definition bounded_join (t : Worker) : event := ev_join (kind t) (Some 1%Z).

(** The body of the handler's loop, lines 113-114. *)
Definition handler_body (env : Env) (thread : option Worker) : M unit :=
  match thread with
  | Some t =>
      w' <- get ;;
      if is_alive env w' t then thread_join_timeout t 1 else ret tt
  | None => ret tt
  end.

(** Collaborators for the examples: the detector's thread cannot be started
    while the decoder, already started, keeps running. *)
Definition stuck_start_env : Env :=
  {| SEQUENTIAL_MODE := false;
     QUEUE_MAXSIZE := 8;
     check_create_output_folder := fun _ => None;
     set_video_info := fun _ => inr flat_video;
     clock_start := 100;
     clock_end := 104;
     run_profile := [];
     queue_init := fun _ => None;
     worker_init := fun _ => None;
     monitor_start := None;
     thread_start_fails :=
       fun k => match k with
                | YOLO => Some "can't start new thread"%string
                | _ => None
                end;
     worker_run := spec_worker;
     still_running := fun _ => true |}.

(** Stage workers of which the decoder and the detector fail on their first
    unit: each stores its error and stops. *)
Definition failing_worker (k : TaskProcessorTypes) (s : AppState)
    (input : list item) : WorkerRun :=
  match k with
  | VIDEO =>
      {| pushed := [None]; exception := Some "decode failed"%string;
         terminates := true |}
  | YOLO =>
      {| pushed := [None]; exception := Some "detect failed"%string;
         terminates := true |}
  | _ => spec_worker k s input
  end.

Definition failing_env (sequential : bool) : Env :=
  {| SEQUENTIAL_MODE := sequential;
     QUEUE_MAXSIZE := 8;
     check_create_output_folder := fun _ => None;
     set_video_info := fun _ => inr flat_video;
     clock_start := 100;
     clock_end := 104;
     run_profile := [];
     queue_init := fun _ => None;
     worker_init := fun _ => None;
     monitor_start := None;
     thread_start_fails := fun _ => None;
     worker_run := failing_worker;
     still_running := fun _ => false |}.

(** The [_duration] entries of the profiles of a list of units, in the
    order [log_performance] visits them. *)
Definition duration_entries (tasks : list AnalyzeFrameTask)
    : list (string * Q) :=
  filter is_duration (flat_map profile tasks).

(** The entries recorded under one key. *)
Definition entries_of (k : string) (entries : list (string * Q))
    : list (string * Q) :=
  filter (fun e => String.eqb (fst e) k) entries.

Definition Qsum (l : list Q) : Q := fold_right Qplus 0 l.

(** The three fields of a line of the report. *)
Definition line_key (l : string * Q * Q) : string := fst (fst l).
Definition line_average (l : string * Q * Q) : Q := snd (fst l).
Definition line_rate (l : string * Q * Q) : Q := snd l.

(** The aggregation loop of lines 206-212 over a flat list of entries. *)
Definition agg_fold (entries : list (string * Q))
    (acc : list (string * (Q * Z))) : list (string * (Q * Z)) :=
  fold_left (fun a e => aggregate_add (fst e) (snd e) a) entries acc.

(** What the aggregate holds after the entries [seen]: one entry per key,
    with the number and the sum of the durations seen under that key. *)
Definition agg_inv (acc : list (string * (Q * Z)))
    (seen : list (string * Q)) : Prop :=
  NoDup (map fst acc) /\
  (forall k, In k (map fst acc) <-> In k (map fst seen)) /\
  (forall k tot cnt,
     In (k, (tot, cnt)) acc ->
     cnt = Z.of_nat (List.length (entries_of k seen)) /\
     tot == Qsum (map snd (entries_of k seen))).

Definition is_bounded_join (ev : event) : bool :=
  match ev with
  | ev_join _ (Some _) => true
  | _ => false
  end.

Definition is_update_ui (ev : event) : bool :=
  match ev with
  | ev_update_ui _ => true
  | _ => false
  end.

Definition is_put (ev : event) : bool :=
  match ev with
  | ev_put _ _ => true
  | _ => false
  end.

(** The events that build or drive the pipeline. *)
Definition is_pipeline_event (ev : event) : bool :=
  match ev with
  | ev_queue _ _ | ev_worker _ | ev_monitor_start | ev_start _ | ev_join _ _
  | ev_put _ _ | ev_check_exception _ | ev_report _ | ev_update_ui _
  | log_thread_done _ | log_warn _ => true
  | _ => false
  end.

(** The stages of sequential mode, each with the queue that [run_thread] is
    told to put the sentinel into (lines 75-79). *)
Definition sequential_steps (use_open_gl : bool)
    : list (TaskProcessorTypes * queue_id) :=
  if use_open_gl then
    [(VIDEO, opengl_q); (OPENGL, yolo_q); (YOLO, analysis_q);
     (YOLO_ANALYSIS, result_q)]
  else [(VIDEO, opengl_q); (YOLO, analysis_q); (YOLO_ANALYSIS, result_q)].

Definition is_step_event (ev : event) : bool :=
  is_thread_event ev || is_put ev.

(** More collaborators and inputs for the examples. *)
Definition quiet_sink : ProgressMessage -> option exn := fun _ => None.

Definition still_video : VideoInfo :=
  {| total_frames := 2; fps := 0; is_vr := false; is_fisheye := false |}.

Definition no_folder_env : Env :=
  {| SEQUENTIAL_MODE := false;
     QUEUE_MAXSIZE := 8;
     check_create_output_folder := fun _ => Some "permission denied"%string;
     set_video_info := fun _ => inr flat_video;
     clock_start := 100;
     clock_end := 104;
     run_profile := [];
     queue_init := fun _ => None;
     worker_init := fun _ => None;
     monitor_start := None;
     thread_start_fails := fun _ => None;
     worker_run := spec_worker;
     still_running := fun _ => false |}.

Definition last_poll : Observation :=
  {| opengl_size := 0; yolo_size := 0; analysis_size := 0;
     results_size := 2; now := 102 |}.

Definition two_units : list item :=
  [Some {| frame_pos := 0;
           profile := [("video_duration"%string, 1); ("pos"%string, 7);
                       ("yolo_duration"%string, 3)] |};
   None;
   Some {| frame_pos := 1;
           profile := [("yolo_duration"%string, 5);
                       ("video_duration"%string, 2)] |}].

(** ** Platforms and polls of the monitor *)

(** The status line an iteration of the monitor writes on the progress
    bar. *)
Definition status_line (o : Observation) (w : World) : event :=
  ev_status_line (results_size o)
    (if String.eqb (video_reader (state w)) OPENGL_READER
     then Some (opengl_size o) else None)
    (yolo_size o) (analysis_size o).

(** What the [try] of lines 153-161 does with the sink [f], given the
    outcome of building the message: the sink is called with the message
    and its error, if any, is logged; when the message cannot be built the
    error is logged and the sink is not called. *)
Definition sink_events (f : ProgressMessage -> option exn)
    (m : Outcome ProgressMessage) : list event :=
  match m with
  | Return m =>
      ev_update_ui m ::
      match f m with
      | Some e => [log_error ("Error in state.update_ui: " ++ e)]
      | None => []
      end
  | Raise e => [log_error ("Error in state.update_ui: " ++ e)]
  | Hang => []
  end.

(** A platform whose floats are exact, each held in lowest terms, with the
    given range of [time.gmtime]. *)
Definition exact_platform (refused : Z -> option exn)
    (epoch : refused 0%Z = None) : Platform.
Proof.
  refine {| float_sub := Qminus;
            float_div := fun a b => Finite (Qred (a / b));
            gmtime_error := refused;
            gmtime_epoch := epoch |}.
  - reflexivity.
  - intro b. apply (f_equal Finite). apply (Qred_complete (0 / b) 0).
    unfold Qdiv. ring.
  - intros n b Hn Hb. unfold float_gt0, Qgtb in *.
    apply negb_true_iff. apply negb_true_iff in Hb.
    destruct (Qle_bool (Qred (inject_Z n / b)) 0) eqn:E; [|reflexivity].
    exfalso. apply Qle_bool_iff in E. rewrite Qred_correct in E.
    assert (Hb' : 0 < b).
    { apply Qnot_le_lt. intro Hle. apply Qle_bool_iff in Hle. congruence. }
    assert (Hpos : 0 < inject_Z n / b).
    { unfold Qdiv. apply Qmult_lt_0_compat.
      - rewrite Zlt_Qlt in Hn. exact Hn.
      - apply Qinv_lt_0_compat. exact Hb'. }
    exact (Qlt_not_le _ _ Hpos E).
Defined.

(** Every instant has a time of day. *)
Definition exact_floats : Platform :=
  exact_platform (fun _ => None) eq_refl.

(** [time.gmtime] refuses the instants before the epoch, as the C library
    of Windows does. *)
Definition no_instant_before_epoch : Platform :=
  exact_platform
    (fun secs =>
       if (secs <? 0)%Z then Some "[Errno 22] Invalid argument"%string
       else None)
    eq_refl.

(** [n / d] rounded to the nearest integer, ties to the even one. *)
Definition round_half_even (n d : Z) : Z :=
  let q := (n / d)%Z in
  match (2 * (n mod d) ?= d)%Z with
  | Lt => q
  | Gt => (q + 1)%Z
  | Eq => if Z.even q then q else (q + 1)%Z
  end.

(** [n / (d * 2^e)] as a fraction of integers. *)
Definition scaled (n d : positive) (e : Z) : Z * Z :=
  if (0 <=? e)%Z then (Zpos n, (Zpos d * 2 ^ e)%Z)
  else ((Zpos n * 2 ^ (- e))%Z, Zpos d).

(** The positive rational [n / d] rounded to 53 significant bits: the
    mantissa [m], between [2^52] and [2^53], and the exponent [e] of the
    nearest number [m * 2^e]. *)
Definition round53 (n d : positive) : positive * Z :=
  let e0 := (Z.log2 (Zpos n) - Z.log2 (Zpos d) - 53)%Z in
  let e := if (fst (scaled n d e0) <? 2 ^ 53 * snd (scaled n d e0))%Z
           then e0 else (e0 + 1)%Z in
  (Z.to_pos (round_half_even (fst (scaled n d e)) (snd (scaled n d e))), e).

(** [m * 2^e]. *)
Definition binary_value (me : positive * Z) : Q :=
  if (0 <=? snd me)%Z then inject_Z (Zpos (fst me) * 2 ^ snd me)
  else Zpos (fst me) # Z.to_pos (2 ^ (- snd me)).

(** The binary64 float nearest to a rational, below the range where
    binary64 loses bits to underflow. *)
Definition binary64_round (q : Q) : Q :=
  match Qnum q with
  | 0%Z => 0
  | Zpos n => binary_value (round53 n (Qden q))
  | Zneg n => - binary_value (round53 n (Qden q))
  end.

(** A result beyond the largest binary64 float is an infinity. *)
Definition binary64_overflow (x : Q) : PyFloat :=
  if Qle_bool (inject_Z (2 ^ 1024)) x then PosInf
  else if Qle_bool x (inject_Z (- 2 ^ 1024)) then NegInf
  else Finite x.

(** binary64 floats, as CPython has them, with the range of [time.gmtime]
    of a C library whose [struct tm] holds the year in 32 bits. *)
Definition binary64 : Platform.
Proof.
  assert (Hpos : forall me, Qle_bool (binary_value me) 0 = false).
  { intros [m e]. unfold binary_value. cbn [fst snd].
    destruct (0 <=? e)%Z eqn:He; [|reflexivity].
    apply Z.leb_le in He.
    unfold Qle_bool, inject_Z. cbn [Qnum Qden].
    apply Z.leb_gt. rewrite !Z.mul_1_r. change (0 * 1)%Z with 0%Z.
    apply Z.mul_pos_pos; [reflexivity|].
    apply Z.pow_pos_nonneg; [reflexivity|exact He]. }
  assert (Hneg : forall me, Qle_bool (- binary_value me) 0 = true).
  { intro me. apply Qle_bool_iff.
    assert (H : 0 < binary_value me).
    { apply Qnot_le_lt. intro Hle. apply Qle_bool_iff in Hle.
      rewrite Hpos in Hle. discriminate Hle. }
    apply Qlt_le_weak. apply (Qopp_lt_compat 0 (binary_value me)) in H.
    exact H. }
  refine {| float_sub := fun a b => binary64_round (a - b);
            float_div := fun a b => binary64_overflow (binary64_round (a / b));
            gmtime_error :=
              fun secs =>
                if ((secs <? -67768040609740800)
                    || (67768036191676799 <? secs))%Z
                then Some "[Errno 75] Value too large for defined data type"%string
                else None;
            gmtime_epoch := eq_refl |}.
  - intros a b. unfold binary64_round, Qgtb.
    destruct (a - b) as [[|n|n] d]; cbn [Qnum Qden].
    + reflexivity.
    + rewrite Hpos. reflexivity.
    + rewrite Hneg. reflexivity.
  - intro b. reflexivity.
  - intros n b Hn Hb.
    assert (Hq : 0 < inject_Z n / b).
    { unfold Qdiv. apply Qmult_lt_0_compat.
      - rewrite Zlt_Qlt in Hn. exact Hn.
      - apply Qinv_lt_0_compat. apply Qnot_le_lt. intro Hle.
        apply Qle_bool_iff in Hle. unfold Qgtb in Hb. rewrite Hle in Hb.
        discriminate Hb. }
    unfold binary64_round.
    destruct (inject_Z n / b) as [[|m|m] d]; cbn [Qnum Qden];
      try (exfalso; revert Hq; unfold Qlt; cbn; lia).
    unfold binary64_overflow.
    destruct (Qle_bool (inject_Z (2 ^ 1024)) (binary_value (round53 m d)));
      [reflexivity|].
    destruct (Qle_bool (binary_value (round53 m d)) (inject_Z (- 2 ^ 1024)))
      eqn:Hlow.
    + exfalso. apply Qle_bool_iff in Hlow.
      assert (Hle : binary_value (round53 m d) <= 0).
      { apply (Qle_trans _ _ _ Hlow). unfold Qle. cbn. lia. }
      apply Qle_bool_iff in Hle. rewrite Hpos in Hle. discriminate Hle.
    + cbn [float_gt0]. unfold Qgtb. rewrite Hpos. reflexivity.
Defined.

(** A poll that finds one item more than the video has frames: the two
    units and the sentinel. *)
Definition overfull_poll : Observation :=
  {| opengl_size := 0; yolo_size := 0; analysis_size := 0;
     results_size := 3; now := 102 |}.

(** Modelled from the spec: stage workers that wait for the sentinel
    (section 4.1).  They are those of [spec_worker], except that a consumer
    whose input never carries the sentinel stays blocked on its queue and
    does not terminate. *)
Definition blocking_worker (k : TaskProcessorTypes) (s : AppState)
    (input : list item) : WorkerRun :=
  match k with
  | VIDEO => spec_worker k s input
  | _ =>
      {| pushed := pushed (spec_worker k s input);
         exception := None;
         terminates := existsb is_sentinel input |}
  end.

Definition blocking_env (sequential : bool) (v : VideoInfo) : Env :=
  {| SEQUENTIAL_MODE := sequential;
     QUEUE_MAXSIZE := 8;
     check_create_output_folder := fun _ => None;
     set_video_info := fun _ => inr v;
     clock_start := 100;
     clock_end := 104;
     run_profile := [];
     queue_init := fun _ => None;
     worker_init := fun _ => None;
     monitor_start := None;
     thread_start_fails := fun _ => None;
     worker_run := blocking_worker;
     still_running := fun _ => false |}.

(** * Properties *)

(** ** Symbolic execution of a run

    A run is unfolded up to the next call of a collaborator, the call is
    split into its outcomes, and the unfolding resumes. *)

Ltac exec :=
  cbv beta iota zeta delta
    [run analyze_video analyze_video_try analyze_video_except start_world
     resolve_video_reader create_pipeline run_sequential run_concurrent
     run_thread finish log_performance do_set_video_info
     new_queue new_worker queue_put thread_start thread_join
     thread_join_timeout check_exception call_update_ui is_alive
     bind ret raise hang try_except get modify emit call lift for_each
     fresh_locals initial_world set_state add_event set_queue set_stop
     set_threads add_started add_finished push input_items
     state trace queues log_thread_stop_event threads started finished
     with_video_reader with_video_info with_analyze_task close_analyze_task
     new_analyze_task done_message forget_errors
     video_path video_reader video_info analyze_task update_ui
     SEQUENTIAL_MODE QUEUE_MAXSIZE check_create_output_folder set_video_info
     clock_start clock_end run_profile queue_init worker_init monitor_start
     thread_start_fails worker_run still_running
     kind input_queue output_queue decode_thread opengl_thread yolo_thread
     yolo_analysis_thread queue_eqb kind_eqb stored_exception mem_kind
     existsb negb andb orb map maxsize queue fst snd].

Lemma ffmpeg_is_not_opengl : String.eqb FFMPEG_READER OPENGL_READER = false.
Proof. reflexivity. Qed.

Lemma full_unbounded (l : list item) :
  full {| maxsize := 0; queue := l |} = false.
Proof. reflexivity. Qed.

Ltac atomic x :=
  lazymatch x with
  | context [match _ with _ => _ end] => fail
  | _ => idtac
  end.

Lemma terminates_forget (r : WorkerRun) :
  terminates (forget_exception r) = terminates r.
Proof. reflexivity. Qed.

Lemma pushed_forget (r : WorkerRun) :
  pushed (forget_exception r) = pushed r.
Proof. reflexivity. Qed.

Lemma exception_forget (r : WorkerRun) :
  exception (forget_exception r) = None.
Proof. reflexivity. Qed.

Ltac settle :=
  exec;
  rewrite ?ffmpeg_is_not_opengl, ?full_unbounded, ?String.eqb_refl,
    ?terminates_forget, ?pushed_forget, ?exception_forget;
  exec.

Ltac step :=
  match goal with
  | |- context [match ?x with _ => _ end] => atomic x; destruct x eqn:?
  end;
  settle.

(** The goal is turned into [P (run env s)] with [P] kept folded, so
    that the run is executed once. *)
Ltac focus_run :=
  match goal with
  | |- context [run ?env ?s] =>
      pattern (run env s);
      match goal with
      | |- ?P _ => let Post := fresh "Post" in set (Post := P)
      end
  end.

Ltac leaf := match goal with Post := _ |- _ => subst Post end; cbv beta; exec.

(** ** Arithmetic of the guards *)

Lemma Qgtb_true (a b : Q) : Qgtb a b = true <-> b < a.
Proof.
  unfold Qgtb. rewrite negb_true_iff. split; intro H.
  - apply Qnot_le_lt. intro Hle. apply Qle_bool_iff in Hle. congruence.
  - destruct (Qle_bool a b) eqn:E; [|reflexivity].
    apply Qle_bool_iff in E. exfalso. exact (Qlt_not_le _ _ H E).
Qed.

Lemma Qgtb_false (a b : Q) : Qgtb a b = false <-> ~ b < a.
Proof.
  rewrite <- Qgtb_true. destruct (Qgtb a b); split; intro H;
    try reflexivity; try discriminate; try (intro; discriminate).
  exfalso. apply H. reflexivity.
Qed.

(** A divisor that passed the guard [n > 0] is not zero. *)
Lemma py_div_guarded (x n : Q) : Qgtb n 0 = true -> py_div x n = Return (x / n).
Proof.
  intro H. apply Qgtb_true in H. unfold py_div.
  destruct (Qeq_bool n 0) eqn:E; [|reflexivity].
  apply Qeq_bool_iff in E. rewrite E in H. exfalso. exact (Qlt_irrefl 0 H).
Qed.

Lemma py_div_nonzero (x n : Q) : ~ n == 0 -> py_div x n = Return (x / n).
Proof.
  intro H. unfold py_div. destruct (Qeq_bool n 0) eqn:E; [|reflexivity].
  apply Qeq_bool_iff in E. contradiction.
Qed.

Lemma div_if_positive_returns (x n : Q) :
  exists y, div_if_positive x n = Return y.
Proof.
  unfold div_if_positive. destruct (Qgtb n 0) eqn:E.
  - rewrite (py_div_guarded x n E). eauto.
  - eauto.
Qed.

Lemma stage_line_returns (n : Z) (entry : string * Q) :
  exists l, stage_line n entry = Return l.
Proof.
  unfold stage_line.
  destruct (div_if_positive_returns (snd entry) (inject_Z n)) as [a ->].
  simpl. destruct (div_if_positive_returns 1 a) as [b ->]. simpl. eauto.
Qed.

Lemma map_o_stage_line_returns (n : Z) (l : list (string * Q)) :
  exists ls, map_o (stage_line n) l = Return ls.
Proof.
  induction l as [|entry l [ls IH]]; simpl.
  - eauto.
  - destruct (stage_line_returns n entry) as [x ->]. simpl.
    rewrite IH. simpl. eauto.
Qed.

(** ** The binary64 platform: rounding to 53 bits *)

Local Open Scope Z_scope.

Lemma round_half_even_range (n d lo : Z) :
  0 < d -> lo * d <= n < (lo + lo) * d ->
  lo <= round_half_even n d <= lo + lo.
Proof.
  intros Hd [Hlo Hhi].
  assert (H1 : lo <= n / d) by (apply Z.div_le_lower_bound; lia).
  assert (H2 : n / d < lo + lo) by (apply Z.div_lt_upper_bound; lia).
  unfold round_half_even.
  destruct (2 * (n mod d) ?= d); [destruct (Z.even (n / d))| |]; lia.
Qed.

(** One step up in the exponent halves the scaled fraction. *)
Lemma scaled_succ (n d : positive) (e : Z) :
  (0 <= e /\ fst (scaled n d (e + 1)) = fst (scaled n d e) /\
   snd (scaled n d (e + 1)) = 2 * snd (scaled n d e)) \/
  (e < 0 /\ fst (scaled n d e) = 2 * fst (scaled n d (e + 1)) /\
   snd (scaled n d (e + 1)) = snd (scaled n d e)).
Proof.
  unfold scaled.
  destruct (0 <=? e) eqn:He.
  - apply Z.leb_le in He. left.
    assert (H1 : (0 <=? e + 1) = true) by (apply Z.leb_le; lia).
    rewrite H1. cbn [fst snd]. rewrite Z.pow_add_r by lia.
    change (2 ^ 1) with 2. repeat split; lia.
  - apply Z.leb_gt in He. right.
    destruct (0 <=? e + 1) eqn:H1; cbn [fst snd].
    + apply Z.leb_le in H1. assert (e = -1) by lia. subst e.
      change (2 ^ (- (-1))) with 2. change (2 ^ (-1 + 1)) with 1.
      repeat split; lia.
    + apply Z.leb_gt in H1.
      replace (- e) with (- (e + 1) + 1) by lia.
      rewrite Z.pow_add_r by lia. change (2 ^ 1) with 2.
      repeat split; lia.
Qed.

Lemma scaled_denominator (n d : positive) (e : Z) : 0 < snd (scaled n d e).
Proof.
  unfold scaled. destruct (0 <=? e) eqn:He; cbn [fst snd]; [|reflexivity].
  apply Z.leb_le in He.
  apply Z.mul_pos_pos; [reflexivity|].
  apply Z.pow_pos_nonneg; [reflexivity|exact He].
Qed.

(** At the first guess of the exponent the fraction has 53 or 54 bits. *)
Lemma scaled_first_guess (n d : positive) :
  let e0 := Z.log2 (Z.pos n) - Z.log2 (Z.pos d) - 53 in
  2 ^ 52 * snd (scaled n d e0) <= fst (scaled n d e0)
  /\ fst (scaled n d e0) < 2 ^ 54 * snd (scaled n d e0).
Proof.
  intro e0.
  destruct (Z.log2_spec (Z.pos n) eq_refl) as [Hn1 Hn2].
  destruct (Z.log2_spec (Z.pos d) eq_refl) as [Hd1 Hd2].
  pose proof (Z.log2_nonneg (Z.pos n)) as Hln.
  pose proof (Z.log2_nonneg (Z.pos d)) as Hld.
  set (ln := Z.log2 (Z.pos n)) in *. set (ld := Z.log2 (Z.pos d)) in *.
  rewrite Z.pow_succ_r in Hn2, Hd2 by assumption.
  unfold scaled.
  destruct (0 <=? e0) eqn:He; cbn [fst snd].
  - apply Z.leb_le in He.
    assert (Hpow : 2 ^ ln = 2 ^ ld * 2 ^ 53 * 2 ^ e0).
    { rewrite <- !Z.pow_add_r by lia. f_equal. subst e0. lia. }
    assert (HE : 0 < 2 ^ e0) by (apply Z.pow_pos_nonneg; lia).
    set (A := 2 ^ ln) in *. set (D := 2 ^ ld) in *. set (E := 2 ^ e0) in *.
    clearbody A D E. change (2 ^ 52) with 4503599627370496.
    change (2 ^ 54) with 18014398509481984.
    change (2 ^ 53) with 9007199254740992 in Hpow.
    split; nia.
  - apply Z.leb_gt in He.
    assert (Hpow : 2 ^ ld * 2 ^ 53 = 2 ^ ln * 2 ^ (- e0)).
    { rewrite <- !Z.pow_add_r by lia. f_equal. subst e0. lia. }
    assert (HE : 0 < 2 ^ (- e0)) by (apply Z.pow_pos_nonneg; lia).
    set (A := 2 ^ ln) in *. set (D := 2 ^ ld) in *.
    set (E := 2 ^ (- e0)) in *.
    clearbody A D E. change (2 ^ 52) with 4503599627370496.
    change (2 ^ 54) with 18014398509481984.
    change (2 ^ 53) with 9007199254740992 in Hpow.
    split; nia.
Qed.

(** The mantissa of [round53] has 53 bits (or is [2^53], when the fraction
    rounds up to the next power of two). *)
Lemma round53_mantissa (n d : positive) :
  2 ^ 52 <= Z.pos (fst (round53 n d)) <= 2 ^ 53.
Proof.
  unfold round53. cbn [fst].
  set (e0 := Z.log2 (Z.pos n) - Z.log2 (Z.pos d) - 53).
  destruct (scaled_first_guess n d) as [Hlo Hhi]. fold e0 in Hlo, Hhi.
  pose proof (scaled_denominator n d e0) as Hd0.
  set (e := if fst (scaled n d e0) <? 2 ^ 53 * snd (scaled n d e0)
            then e0 else e0 + 1).
  assert (H : 2 ^ 52 * snd (scaled n d e) <= fst (scaled n d e)
              < (2 ^ 52 + 2 ^ 52) * snd (scaled n d e)).
  { subst e.
    destruct (fst (scaled n d e0) <? 2 ^ 53 * snd (scaled n d e0)) eqn:Hc.
    - apply Z.ltb_lt in Hc. change (2 ^ 52 + 2 ^ 52) with (2 ^ 53). lia.
    - apply Z.ltb_ge in Hc. change (2 ^ 52 + 2 ^ 52) with (2 ^ 53).
      change (2 ^ 52) with 4503599627370496 in *.
      change (2 ^ 53) with 9007199254740992 in *.
      change (2 ^ 54) with 18014398509481984 in *.
      destruct (scaled_succ n d e0) as [(_ & -> & ->) | (_ & Hf & ->)]; lia. }
  pose proof (round_half_even_range _ _ (2 ^ 52) (scaled_denominator n d e) H)
    as Hm.
  change (2 ^ 52 + 2 ^ 52) with (2 ^ 53) in Hm.
  rewrite Z2Pos.id; [exact Hm|].
  apply (Z.lt_le_trans _ (2 ^ 52)); [reflexivity|exact (proj1 Hm)].
Qed.

Local Close Scope Z_scope.

(** ** The monitor: rate, ETA, and the progress sink *)

(** A float that passed the guard [x > 0] is not zero. *)
Lemma float_gt0_nonzero (x : PyFloat) :
  float_gt0 x = true -> float_is_zero x = false.
Proof.
  destruct x as [q| |]; simpl; try reflexivity; try discriminate.
  intro H. apply Qgtb_true in H.
  destruct (Qeq_bool q 0) eqn:E; [|reflexivity].
  apply Qeq_bool_iff in E. rewrite E in H. exfalso. exact (Qlt_irrefl 0 H).
Qed.

Lemma float_truediv_guarded (p : Platform) (a : Z) (b : PyFloat) :
  float_gt0 b = true ->
  float_truediv p a b = Return (float_quot p (inject_Z a) b).
Proof.
  intro H. unfold float_truediv. rewrite (float_gt0_nonzero b H). reflexivity.
Qed.

Lemma processing_rate_returns (p : Platform) (frames : Z) (elapsed : Q) :
  processing_rate p frames elapsed =
  Return (if Qgtb elapsed 0 then float_div p (inject_Z frames) elapsed
          else Finite 0).
Proof.
  unfold processing_rate. destruct (Qgtb elapsed 0) eqn:E.
  - rewrite (float_truediv_guarded p frames (Finite elapsed) E). reflexivity.
  - reflexivity.
Qed.

Lemma eta_seconds_returns (p : Platform) (remaining : Z) (rate : PyFloat) :
  eta_seconds p remaining rate =
  Return (if float_gt0 rate then float_quot p (inject_Z remaining) rate
          else PosInf).
Proof.
  unfold eta_seconds. destruct (float_gt0 rate) eqn:E.
  - apply float_truediv_guarded. exact E.
  - reflexivity.
Qed.

(** Building the message returns or raises. *)
Lemma build_message_cases (p : Platform) (total frames : Z) (eta : PyFloat) :
  (exists m, build_message p total frames eta = Return m) \/
  (exists e, build_message p total frames eta = Raise e).
Proof.
  unfold build_message, eta_string, gmtime.
  destruct eta as [q| |]; simpl; eauto.
  destruct (gmtime_error p (Qfloor q)); simpl; eauto.
Qed.



(** An iteration of the monitor in closed form: it returns, and the world
    it leaves is the one it found with the stop event possibly set and its
    events appended. *)
Lemma log_progress_iteration_spec (p : Platform) (o : Observation)
    (w : World) :
  let total := total_frames (video_info (state w)) in
  let frames := results_size o in
  let elapsed := float_sub p (now o) (start_time (analyze_task (state w))) in
  let rate := if Qgtb elapsed 0 then float_div p (inject_Z frames) elapsed
              else Finite 0 in
  let eta := if float_gt0 rate
             then float_quot p (inject_Z (total - frames)) rate
             else PosInf in
  let w1 := add_event (status_line o w) w in
  let w2 := if (total <=? frames)%Z then add_event ev_stop_set (set_stop w1)
            else w1 in
  log_progress_iteration p o w =
  (Return tt,
   match update_ui (state w) with
   | Some f =>
       fold_left (fun w e => add_event e w)
         (sink_events f (build_message p total frames eta)) w2
   | None => w2
   end).
Proof.
  intros total frames elapsed rate eta w1 w2.
  unfold log_progress_iteration, bind, get, emit, modify, ret, lift.
  fold total frames elapsed.
  subst w2 w1. unfold status_line. fold total frames.
  destruct (total <=? frames)%Z; simpl;
    (destruct (update_ui (state w)) as [f|]; [|reflexivity]);
    fold total frames elapsed;
    rewrite processing_rate_returns; fold rate;
    rewrite eta_seconds_returns; fold eta;
    unfold try_except, call_update_ui, bind, emit, modify, call, lift;
    (destruct (build_message_cases p total frames eta) as [[m ->] | [e ->]];
     simpl; [destruct (f m); reflexivity | reflexivity]).
Qed.


(** An iteration of the monitor returns, whatever the sink does. *)
Lemma log_progress_iteration_returns (p : Platform) (o : Observation)
    (w : World) :
  fst (log_progress_iteration p o w) = Return tt.
Proof. rewrite log_progress_iteration_spec. reflexivity. Qed.

Lemma log_progress_returns (p : Platform) (polls : list Observation)
    (w : World) :
  fst (log_progress p polls w) = Return tt.
Proof.
  revert w. induction polls as [|o rest IH]; intro w; simpl.
  - reflexivity.
  - unfold bind at 1, get. simpl.
    destruct (log_thread_stop_event w); [reflexivity|].
    unfold bind.
    pose proof (log_progress_iteration_returns p o w) as H.
    destruct (log_progress_iteration p o w) as [r w']. simpl in H. subst r.
    apply IH.
Qed.


(** ** The performance aggregator: what counts as a unit *)

Lemma filter_has_profile_length (results : list item) :
  Z.of_nat (List.length (filter has_profile results)) = count_units results.
Proof.
  unfold count_units.
  induction results as [|[t|] l IH]; simpl List.length; simpl filter.
  - reflexivity.
  - simpl List.length. lia.
  - simpl List.length. lia.
Qed.

Lemma filter_nonempty_le (results : list item) :
  (count_nonempty_profile results <= count_units results)%Z.
Proof.
  rewrite <- filter_has_profile_length. unfold count_nonempty_profile.
  induction results as [|[t|] l IH]; simpl; try lia.
  destruct (profile t); simpl List.length; lia.
Qed.

Lemma performance_report_total (sq : bool) (s : AppState)
    (results : list item) (r : Report) :
  performance_report sq s results = Return r ->
  r_total_frames r = count_units results.
Proof.
  unfold performance_report. intro H.
  destruct (py_div _ (fps (video_info s))) as [d| |]; simpl in H;
    try discriminate.
  destruct (py_div _ (end_time (analyze_task s) - start_time (analyze_task s)))
    as [a| |]; simpl in H; try discriminate.
  destruct (if sq then _ else _) as [st| |]; simpl in H;
    try discriminate.
  inversion H; subst; simpl. apply filter_has_profile_length.
Qed.

Lemma performance_report_returns (sq : bool) (s : AppState)
    (results : list item) :
  ~ fps (video_info s) == 0 ->
  ~ end_time (analyze_task s) - start_time (analyze_task s) == 0 ->
  exists r, performance_report sq s results = Return r.
Proof.
  intros Hfps Htime. unfold performance_report.
  rewrite (py_div_nonzero _ _ Hfps). simpl.
  rewrite (py_div_nonzero _ _ Htime). simpl.
  destruct sq.
  - destruct (map_o_stage_line_returns
                (Z.of_nat (List.length (filter has_profile results)))
                (filter is_duration (task_profile (analyze_task s))))
      as [ls ->].
    simpl. eauto.
  - destruct (map_o_stage_line_returns
                (Z.of_nat (List.length (filter has_profile results)))
                (map (fun e => (fst e, fst (snd e)))
                   (aggregated_times (tasks_of (filter has_profile results)))))
      as [ls ->].
    simpl. eauto.
Qed.

(** C8, as the claim states it, fails: a completed unit whose profile is
    empty is counted.  With one such unit and one sentinel in the results
    queue the report shows one unit, while no unit has a non-empty
    profile. *)
Lemma C8_counterexample :
  total_units false (reported_state flat_video)
    [Some {| frame_pos := 0; profile := [] |}; None] = Return 1%Z
  /\ count_nonempty_profile
       [Some {| frame_pos := 0; profile := [] |}; None] = 0%Z.
Proof. split; reflexivity. Qed.

(** C8, amended.  Whenever the frame rate and the pipeline time are not
    zero the report is produced, and its total-units count is the number of
    items of the results queue that are completed units, with an empty
    profile or not: every sentinel is left out, and the count is at least
    the number of units with a non-empty profile. *)
Theorem C8_total_counts_every_unit :
  forall (sequential : bool) (s : AppState) (results : list item),
    ~ fps (video_info s) == 0 ->
    ~ end_time (analyze_task s) - start_time (analyze_task s) == 0 ->
    exists r,
      performance_report sequential s results = Return r /\
      r_total_frames r = count_units results /\
      r_total_frames r = Z.of_nat (List.length (tasks_of results)) /\
      (count_nonempty_profile results <= r_total_frames r)%Z.
Proof.
  intros sq s results Hfps Htime.
  destruct (performance_report_returns sq s results Hfps Htime) as [r Hr].
  exists r. split; [exact Hr|].
  pose proof (performance_report_total sq s results r Hr) as Ht.
  split; [exact Ht|]. split.
  - rewrite Ht, <- filter_has_profile_length.
    clear. induction results as [|[t|] l IH]; simpl; lia.
  - rewrite Ht. apply filter_nonempty_le.
Qed.

Lemma C8_total_counts_every_unit_witness :
  exists r,
    performance_report false (reported_state flat_video)
      [Some {| frame_pos := 0; profile := [] |}; None] = Return r /\
    r_total_frames r = 1%Z.
Proof.
  assert (Hfps : ~ fps (video_info (reported_state flat_video)) == 0).
  { intro H. vm_compute in H. discriminate. }
  assert (Htime : ~ end_time (analyze_task (reported_state flat_video))
                    - start_time (analyze_task (reported_state flat_video))
                    == 0).
  { intro H. vm_compute in H. discriminate. }
  destruct (C8_total_counts_every_unit false
              (reported_state flat_video)
              [Some {| frame_pos := 0; profile := [] |}; None] Hfps Htime)
    as (r & Hr & Hc & _).
  exists r. split; [exact Hr | exact Hc].
Defined.

(** ** The choice of the reader *)

(** C6.  When the probed video is flat (not VR) or fisheye, whatever reader
    was requested: every worker that is created, started, joined or queried
    is one of decode, detect and analyze, and the decoder is wired to the
    detector's queue; when the conversion reader was requested a warning is
    logged before the first worker is created and the reader is switched to
    the plain one; the stages created and started are always an initial part
    of decode, detect, analyze, and exactly these three when the run
    returns. *)
Theorem C6_conversion_disabled_for_flat_or_fisheye :
  forall (env : Env) (s : AppState) (v : VideoInfo),
    check_create_output_folder env (video_path s) = None ->
    set_video_info env (video_path s) = inr v ->
    is_vr v = false \/ is_fisheye v = true ->
    forallb wired_without_conversion (trace (snd (run env s))) = true /\
    (video_reader s = OPENGL_READER ->
       warned_before_workers (trace (snd (run env s))) = true /\
       video_reader (state (snd (run env s))) = FFMPEG_READER) /\
    (exists rest,
       (stages_created (trace (snd (run env s))) ++ rest)%list
       = [VIDEO; YOLO; YOLO_ANALYSIS]) /\
    (exists rest,
       (stages_started (trace (snd (run env s))) ++ rest)%list
       = [VIDEO; YOLO; YOLO_ANALYSIS]) /\
    (forall r, fst (run env s) = Return r ->
       stages_created (trace (snd (run env s))) = [VIDEO; YOLO; YOLO_ANALYSIS]
       /\ stages_started (trace (snd (run env s)))
          = [VIDEO; YOLO; YOLO_ANALYSIS]).
Proof.
  intros env s v Hfolder Hprobe Hflat.
  destruct env as [sq qmax folder probe t0 t1 prof qinit winit mon
                     tstart wrun alive].
  destruct s as [path reader vi task ui].
  simpl in Hfolder, Hprobe.
  focus_run.
  destruct (String.eqb reader OPENGL_READER) eqn:Hreader.
  - apply String.eqb_eq in Hreader. subst reader.
    settle. rewrite Hfolder. settle. rewrite Hprobe. settle.
    destruct Hflat as [Hflat | Hflat]; rewrite Hflat; settle;
      repeat step; leaf;
      (split; [reflexivity|]);
      (split; [intros _; split; reflexivity|]);
      (split; [eexists; reflexivity|]);
      (split; [eexists; reflexivity|]);
      intros r Hr; first [discriminate Hr | split; reflexivity].
  - settle. rewrite Hfolder. settle. rewrite Hprobe. settle.
    rewrite Hreader. settle.
    repeat (first [rewrite Hreader; settle | step]); leaf;
      (split; [reflexivity|]);
      (split; [intros Hr; subst reader;
               rewrite String.eqb_refl in Hreader; discriminate|]);
      (split; [eexists; reflexivity|]);
      (split; [eexists; reflexivity|]);
      intros r Hr; first [discriminate Hr | split; reflexivity].
Qed.

Lemma C6_conversion_disabled_for_flat_or_fisheye_witness :
  forallb wired_without_conversion
    (trace (snd (run (demo_env false fisheye_video)
                   (demo_state OPENGL_READER None)))) = true /\
  warned_before_workers
    (trace (snd (run (demo_env false fisheye_video)
                   (demo_state OPENGL_READER None)))) = true.
Proof.
  destruct (C6_conversion_disabled_for_flat_or_fisheye
              (demo_env false fisheye_video) (demo_state OPENGL_READER None)
              fisheye_video eq_refl eq_refl (or_intror eq_refl))
    as (H1 & H2 & _).
  split; [exact H1 | exact (proj1 (H2 eq_refl))].
Defined.

(** C10.  When the conversion reader is requested and the probed video is
    flat or fisheye, the [video_reader] field of the shared state holds the
    plain reader when [analyze_video] is left, by a return, by an exception
    or not at all: the requested preference is gone from the state. *)
Theorem C10_reader_preference_is_overwritten :
  forall (env : Env) (s : AppState) (v : VideoInfo),
    check_create_output_folder env (video_path s) = None ->
    set_video_info env (video_path s) = inr v ->
    video_reader s = OPENGL_READER ->
    is_vr v = false \/ is_fisheye v = true ->
    video_reader (state (snd (run env s))) = FFMPEG_READER /\
    video_reader (state (snd (run env s))) <> video_reader s.
Proof.
  intros env s v Hfolder Hprobe Hreader Hflat.
  assert (H : video_reader (state (snd (run env s))) = FFMPEG_READER).
  { destruct env as [sq qmax folder probe t0 t1 prof qinit winit mon
                       tstart wrun alive].
    destruct s as [path reader vi task ui].
    simpl in Hfolder, Hprobe, Hreader. subst reader.
    focus_run.
    settle. rewrite Hfolder. settle. rewrite Hprobe. settle.
    destruct Hflat as [Hflat | Hflat]; rewrite Hflat; settle;
      repeat step; leaf; reflexivity. }
  split; [exact H|]. rewrite H, Hreader. discriminate.
Qed.

Lemma C10_reader_preference_is_overwritten_witness :
  video_reader (state (snd (run (demo_env false flat_video)
                              (demo_state OPENGL_READER None))))
  = FFMPEG_READER.
Proof.
  exact (proj1 (C10_reader_preference_is_overwritten
                  (demo_env false flat_video) (demo_state OPENGL_READER None)
                  flat_video eq_refl eq_refl eq_refl (or_introl eq_refl))).
Defined.

(** ** What [analyze_video] returns *)

(** C1.  In sequential mode the orchestrator itself puts the sentinel into
    the results queue after the last stage (line 79) and returns the queue
    as it is (line 106): whenever the call returns, the returned collection
    is the content of the results queue and its last element is the
    sentinel. *)
Theorem C1_sequential_result_contains_sentinel :
  forall (env : Env) (s : AppState) (r : list item),
    SEQUENTIAL_MODE env = true ->
    fst (run env s) = Return r ->
    exists l,
      r = (l ++ [None])%list /\
      r = queue (queues (snd (run env s)) result_q) /\
      In None r.
Proof.
  intros env s r Hseq.
  destruct env as [sq qmax folder probe t0 t1 prof qinit winit mon
                     tstart wrun alive].
  destruct s as [path reader vi task ui].
  simpl in Hseq. subst sq.
  focus_run. settle.
  repeat step; leaf; intro H;
    first [discriminate H
          | injection H as <-; eexists;
            split; [reflexivity|split; [reflexivity|]];
            apply in_or_app; right; left; reflexivity].
Qed.

Lemma C1_sequential_result_contains_sentinel_witness :
  exists l,
    queue (queues (snd (run (demo_env true flat_video)
                          (demo_state FFMPEG_READER None))) result_q)
    = (l ++ [None])%list.
Proof.
  assert (H : fst (run (demo_env true flat_video)
                     (demo_state FFMPEG_READER None))
              = Return (queue (queues
                                 (snd (run (demo_env true flat_video)
                                         (demo_state FFMPEG_READER None)))
                                 result_q))).
  { vm_compute. reflexivity. }
  destruct (C1_sequential_result_contains_sentinel
              (demo_env true flat_video) (demo_state FFMPEG_READER None)
              _ eq_refl H) as (l & Hl & _).
  exists l. exact Hl.
Defined.

(** The returned collection of a sequential run of the two-frame video: the
    two units, the sentinel of the last worker and the sentinel of the
    orchestrator. *)
Example sequential_demo_result :
  option_map (map has_profile)
    (match fst (run (demo_env true flat_video)
                  (demo_state FFMPEG_READER None)) with
     | Return r => Some r
     | _ => None
     end)
  = Some [true; true; false; false].
Proof. vm_compute. reflexivity. Qed.

(** ** Sentinels in sequential mode *)

(** C2.  A sequential run without the conversion stage that returns leaves
    the queues as follows: [opengl_q], which no stage is wired to, holds the
    sentinel that line 75 puts after the decoder; [yolo_q], the decoder's
    real output queue, holds exactly what the decoder pushed, with no
    sentinel from the orchestrator; [analysis_q] and [result_q] hold what
    their producer pushed followed by one sentinel from the orchestrator.
    So the number of sentinels differs between the queues unless the workers
    differ in how many they push themselves. *)
Theorem C2_sequential_sentinel_placement :
  forall (env : Env) (s : AppState) (v : VideoInfo) (r : list item),
    SEQUENTIAL_MODE env = true ->
    set_video_info env (video_path s) = inr v ->
    String.eqb (resolved_reader (video_reader s) v) OPENGL_READER = false ->
    fst (run env s) = Return r ->
    let st := pipeline_state env s v in
    let d := worker_run env VIDEO st [] in
    let y := worker_run env YOLO st (pushed d) in
    let a := worker_run env YOLO_ANALYSIS st (pushed y ++ [None]) in
    let q := queues (snd (run env s)) in
    queue (q opengl_q) = [None] /\
    queue (q yolo_q) = pushed d /\
    queue (q analysis_q) = (pushed y ++ [None])%list /\
    queue (q result_q) = (pushed a ++ [None])%list /\
    sentinels (queue (q yolo_q)) = sentinels (pushed d) /\
    sentinels (queue (q analysis_q)) = S (sentinels (pushed y)) /\
    sentinels (queue (q result_q)) = S (sentinels (pushed a)).
Proof.
  intros env s v r Hseq Hprobe Hgl.
  destruct env as [sq qmax folder probe t0 t1 prof qinit winit mon
                     tstart wrun alive].
  destruct s as [path reader vi task ui].
  unfold pipeline_state. simpl in Hseq, Hprobe, Hgl |- *. subst sq.
  unfold resolved_reader in *.
  focus_run. settle.
  destruct (folder path); settle; [leaf; discriminate|].
  rewrite Hprobe. settle.
  destruct (String.eqb reader OPENGL_READER) eqn:Hreader; settle.
  - destruct (is_vr v) eqn:Hvr; destruct (is_fisheye v) eqn:Hfe; simpl in Hgl;
      try discriminate Hgl; settle.
    all: repeat step; leaf; intro H; try discriminate H.
    all: unfold sentinels; rewrite ?filter_app, ?length_app; simpl.
    all: repeat split; try reflexivity; try apply Nat.add_1_r.
  - rewrite ?Hreader. settle.
    repeat (first [rewrite Hreader; settle | step]); leaf; intro H;
      try discriminate H.
    all: unfold sentinels; rewrite ?filter_app, ?length_app; simpl.
    all: repeat split; try reflexivity; try apply Nat.add_1_r.
Qed.

Lemma C2_sequential_sentinel_placement_witness :
  queue (queues (snd (run (demo_env true flat_video)
                        (demo_state FFMPEG_READER None))) opengl_q)
  = [None].
Proof.
  assert (H : fst (run (demo_env true flat_video)
                     (demo_state FFMPEG_READER None))
              = Return (queue (queues
                                 (snd (run (demo_env true flat_video)
                                         (demo_state FFMPEG_READER None)))
                                 result_q))).
  { vm_compute. reflexivity. }
  exact (proj1 (C2_sequential_sentinel_placement
                  (demo_env true flat_video) (demo_state FFMPEG_READER None)
                  flat_video _ eq_refl eq_refl eq_refl H)).
Defined.

(** With stage workers that push their own sentinel, a sequential run of the
    two-frame flat video leaves one sentinel in [opengl_q] and in [yolo_q]
    and two in [analysis_q] and in [result_q]. *)
Example sequential_demo_sentinels :
  map (fun q => sentinels
                  (queue (queues (snd (run (demo_env true flat_video)
                                         (demo_state FFMPEG_READER None)))
                            q)))
      [opengl_q; yolo_q; analysis_q; result_q]
  = [1; 1; 2; 2]%nat.
Proof. vm_compute. reflexivity. Qed.

(** ** The progress sink at the end of the run *)

(** C3.  The final update of the sink (lines 98-104) is inside the [try]
    block and has no handler of its own: with a sink that raises, no call of
    [analyze_video] returns. *)
Theorem C3_failing_sink_fails_the_run :
  forall (env : Env) (s : AppState) (e : exn) (r : list item),
    update_ui s = Some (failing_sink e) ->
    fst (run env s) <> Return r.
Proof.
  intros env s e r Hsink.
  destruct env as [sq qmax folder probe t0 t1 prof qinit winit mon
                     tstart wrun alive].
  destruct s as [path reader vi task ui].
  simpl in Hsink. subst ui.
  focus_run. settle.
  repeat step; leaf; unfold failing_sink; exec; discriminate.
Qed.

Lemma C3_failing_sink_fails_the_run_witness :
  fst (run (demo_env false flat_video)
         (demo_state FFMPEG_READER (Some (failing_sink "sink failed"%string))))
  <> Return [].
Proof.
  exact (C3_failing_sink_fails_the_run
           (demo_env false flat_video)
           (demo_state FFMPEG_READER (Some (failing_sink "sink failed"%string)))
           "sink failed"%string [] eq_refl).
Defined.

(** A run in which every stage succeeds and the report is logged, and which
    raises the error of the sink. *)
Example failing_sink_demo :
  fst (run (demo_env false flat_video)
         (demo_state FFMPEG_READER (Some (failing_sink "sink failed"%string))))
  = Raise "sink failed"%string
  /\ existsb (fun ev => match ev with ev_report _ => true | _ => false end)
       (trace (snd (run (demo_env false flat_video)
                      (demo_state FFMPEG_READER
                         (Some (failing_sink "sink failed"%string)))))) = true.
Proof. split; vm_compute; reflexivity. Qed.

(** The monitor, in contrast, swallows the error of the sink. *)
Example monitor_swallows_sink_error :
  fst (log_progress exact_floats
         [{| opengl_size := 0; yolo_size := 1; analysis_size := 0;
             results_size := 1; now := 101 |}]
         (initial_world
            (with_video_info flat_video
               (demo_state FFMPEG_READER (Some (failing_sink "sink failed"%string))))))
  = Return tt.
Proof. apply log_progress_returns. Qed.

(** Where [time.gmtime] refuses the instants before the epoch, a poll that
    finds more items than the video has frames gives a negative ETA: the
    message is not built, the sink is not called, and the error is logged. *)
Example monitor_logs_gmtime_error :
  trace (snd (log_progress_iteration no_instant_before_epoch overfull_poll
                (initial_world
                   (with_video_info flat_video
                      (demo_state FFMPEG_READER (Some quiet_sink))))))
  = [ev_status_line 3 None 0 0; ev_stop_set;
     log_error "Error in state.update_ui: [Errno 22] Invalid argument"].
Proof. vm_compute. reflexivity. Qed.

(** The two quotients round: with 3 of 24 units done after 17 seconds the
    ETA in binary64 is just below 119 seconds and the text shows 118;
    exact quotients would show 119. *)
Example eta_text_in_binary64 :
  progress_message binary64 (reported_state flat_video) 24 3 117
  = Return {| process := "OBJECT_DETECTION";
              frames_processed := 3;
              pm_total_frames := 24;
              eta := "00:01:58" |}
  /\ progress_message exact_floats (reported_state flat_video) 24 3 117
     = Return {| process := "OBJECT_DETECTION";
                 frames_processed := 3;
                 pm_total_frames := 24;
                 eta := "00:01:59" |}.
Proof. split; vm_compute; reflexivity. Qed.

(** A rate too small for the ETA to fit a float: the quotient is an
    infinity and the text is "Calculating...". *)
Example eta_overflow_in_binary64 :
  eta_seconds binary64 (10 ^ 9) (Finite (binary64_round (1 # 10 ^ 300)))
  = Return PosInf
  /\ build_message binary64 2 1 PosInf
     = Return {| process := "OBJECT_DETECTION";
                 frames_processed := 1;
                 pm_total_frames := 2;
                 eta := "Calculating..." |}.
Proof. split; vm_compute; reflexivity. Qed.

(** ** Sequential mode and stored errors *)

(** C9.  In sequential mode no [check_exception] call is made, and the
    outcome and the trace of the call are those of the same run with the
    stored exceptions of all workers erased; when the call returns it
    returns the content of the results queue. *)
Theorem C9_sequential_ignores_stored_errors :
  forall (env : Env) (s : AppState),
    SEQUENTIAL_MODE env = true ->
    forallb (fun ev => negb (is_check_exception ev)) (trace (snd (run env s)))
      = true /\
    fst (run env s) = fst (run (forget_errors env) s) /\
    trace (snd (run env s)) = trace (snd (run (forget_errors env) s)) /\
    (forall r, fst (run env s) = Return r ->
       r = queue (queues (snd (run env s)) result_q)).
Proof.
  intros env s Hseq.
  destruct env as [sq qmax folder probe t0 t1 prof qinit winit mon
                     tstart wrun alive].
  destruct s as [path reader vi task ui].
  simpl in Hseq. subst sq.
  match goal with
  | |- context [run ?e1 ?s1] =>
      match goal with
      | |- context [run (forget_errors ?e2) ?s2] =>
          pattern (run e1 s1), (run (forget_errors e2) s2);
          match goal with
          | |- ?P _ _ => set (Post := P)
          end
      end
  end.
  settle.
  repeat step; leaf;
    (split; [reflexivity|]); (split; [reflexivity|]); (split; [reflexivity|]);
    intros r H; first [discriminate H | injection H as <-; reflexivity].
Qed.

Lemma C9_sequential_ignores_stored_errors_witness :
  fst (run (failing_env true) (demo_state FFMPEG_READER None))
  = fst (run (forget_errors (failing_env true))
           (demo_state FFMPEG_READER None)).
Proof.
  exact (proj1 (proj2 (C9_sequential_ignores_stored_errors
                         (failing_env true) (demo_state FFMPEG_READER None)
                         eq_refl))).
Defined.

(** Two stages stored an error; the sequential run returns all the same. *)
Example sequential_failing_demo :
  fst (run (failing_env true) (demo_state FFMPEG_READER None))
  = Return [None; None].
Proof. vm_compute. reflexivity. Qed.

(** ** Concurrent mode: the order of start, join and check *)

(** A worker of the run terminates when all the active stages do. *)
Ltac stage_terminates Hterm :=
  match goal with
  | H : terminates ?X = false |- _ =>
      exfalso;
      assert (terminates X = true) as Ht
        by (eapply Hterm;
            first [ left; reflexivity
                  | right; left; reflexivity
                  | right; right; left; reflexivity
                  | right; right; right; left; reflexivity ]);
      rewrite Ht in H; discriminate H
  end.



(** ** The failure handler *)

Lemma run_unfold (env : Env) (s : AppState) :
  run env s =
  match analyze_video_try env (start_world env s) with
  | (Raise e, w1) => analyze_video_except env e w1
  | r => r
  end.
Proof. reflexivity. Qed.

Lemma is_alive_same (env : Env) (w w' : World) (t : Worker) :
  started w' = started w -> finished w' = finished w ->
  is_alive env w' t = is_alive env w t.
Proof. intros Hs Hf. unfold is_alive. rewrite Hs, Hf. reflexivity. Qed.

Lemma for_each_cons {A} (x : A) (l : list A) (f : A -> M unit) (w : World) :
  for_each (x :: l) f w =
  match f x w with
  | (Return _, w') => for_each l f w'
  | (Raise e, w') => (Raise e, w')
  | (Hang, w') => (Hang, w')
  end.
Proof. reflexivity. Qed.

Lemma handler_body_some (env : Env) (t : Worker) (w : World) :
  handler_body env (Some t) w =
  (Return tt, if is_alive env w t then add_event (bounded_join t) w else w).
Proof.
  unfold handler_body, bind, get, thread_join_timeout, emit, modify, ret.
  destruct (is_alive env w t); reflexivity.
Qed.

Lemma for_each_handler (env : Env) (l : list (option Worker)) :
  forall w, exists w',
    for_each l (handler_body env) w = (Return tt, w') /\
    trace w'
    = (trace w ++ map bounded_join (filter (is_alive env w) (workers_of l)))%list
    /\ started w' = started w
    /\ finished w' = finished w
    /\ log_thread_stop_event w' = log_thread_stop_event w
    /\ state w' = state w.
Proof.
  induction l as [|[t|] l IH]; intro w.
  - exists w. simpl. rewrite app_nil_r. repeat split; reflexivity.
  - rewrite for_each_cons, handler_body_some.
    cbn [workers_of filter].
    destruct (is_alive env w t) eqn:Halive.
    + destruct (IH (add_event (bounded_join t) w))
        as (w' & H1 & H2 & H3 & H4 & H5 & H6).
      exists w'. split; [exact H1|].
      rewrite H2, H3, H4, H5, H6.
      rewrite (filter_ext (is_alive env (add_event (bounded_join t) w))
                          (is_alive env w)).
      * simpl. rewrite <- app_assoc. repeat split; reflexivity.
      * intro a. apply is_alive_same; reflexivity.
    + apply IH.
  - rewrite for_each_cons. cbn [workers_of handler_body ret]. apply IH.
Qed.

Lemma analyze_video_except_spec (env : Env) (e : exn) (w : World) :
  exists w',
    analyze_video_except env e w = (Raise e, w') /\
    trace w'
    = (trace w
       ++ [log_error ("An error occurred during video analysis: " ++ e)%string;
           ev_stop_set]
       ++ map bounded_join (handler_joins env w))%list /\
    log_thread_stop_event w' = true /\
    state w' = state w.
Proof.
  pose (w0 := add_event ev_stop_set
                (set_stop
                   (add_event
                      (log_error
                         ("An error occurred during video analysis: " ++ e)%string)
                      w))).
  destruct (for_each_handler env (threads w0) w0)
    as (w' & H1 & H2 & H3 & H4 & H5 & H6).
  exists w'. split.
  - change (analyze_video_except env e w)
      with (bind (for_each (threads w0) (handler_body env))
                 (fun _ => @raise (list item) e) w0).
    unfold bind. rewrite H1. reflexivity.
  - rewrite H2, H5, H6. unfold handler_joins. simpl.
    rewrite <- !app_assoc. repeat split; reflexivity.
Qed.

Lemma mem_kind_In (k : TaskProcessorTypes) (l : list TaskProcessorTypes) :
  In k l -> mem_kind k l = true.
Proof.
  intro H. unfold mem_kind. apply existsb_exists. exists k. split; [exact H|].
  destruct k; reflexivity.
Qed.

Lemma kind_eqb_eq (a b : TaskProcessorTypes) : kind_eqb a b = true -> a = b.
Proof. destruct a, b; simpl; intro H; congruence. Qed.

Lemma try_raise_tracked (env : Env) (s : AppState) :
  match fst (analyze_video_try env (start_world env s)) with
  | Raise _ =>
      started_are_tracked (snd (analyze_video_try env (start_world env s)))
      = true
  | _ => True
  end.
Proof.
  destruct env as [sq qmax folder probe t0 t1 prof qinit winit mon
                     tstart wrun alive].
  destruct s as [path reader vi task ui].
  match goal with
  | |- context [analyze_video_try ?e ?w] =>
      pattern (analyze_video_try e w);
      match goal with
      | |- ?P _ => set (Post := P)
      end
  end.
  settle.
  repeat step; leaf; first [exact I | reflexivity].
Qed.

(** When the output folder cannot be prepared, or the probe fails, the
    [try] block raises that error. *)
Lemma output_folder_failure (env : Env) (s : AppState) (e : exn) :
  check_create_output_folder env (video_path s) = Some e ->
  fst (analyze_video_try env (start_world env s)) = Raise e.
Proof.
  intro H. destruct env, s. simpl in H. settle. rewrite H. reflexivity.
Qed.

Lemma probe_failure (env : Env) (s : AppState) (e : exn) :
  check_create_output_folder env (video_path s) = None ->
  set_video_info env (video_path s) = inl e ->
  fst (analyze_video_try env (start_world env s)) = Raise e.
Proof.
  intros H1 H2. destruct env, s. simpl in H1, H2. settle.
  rewrite H1. settle. rewrite H2. reflexivity.
Qed.

(** C4.  Whenever the [try] block raises an error, as it does when the
    setup or the start of a worker raises: [analyze_video] raises that same
    error and so returns no result; the stop event of the monitor is set;
    after the failure the trace continues with the error message, the stop
    signal, and one [join(timeout=1)] for each worker of [threads] that is
    alive, and with nothing else, so no unbounded join is made; and every
    worker that was started, has not terminated and is still running gets
    such a bounded join. *)
Theorem C4_failure_path :
  forall (env : Env) (s : AppState) (e : exn) (w1 : World),
    analyze_video_try env (start_world env s) = (Raise e, w1) ->
    fst (run env s) = Raise e /\
    log_thread_stop_event (snd (run env s)) = true /\
    trace (snd (run env s))
    = (trace w1
       ++ [log_error ("An error occurred during video analysis: " ++ e)%string;
           ev_stop_set]
       ++ map bounded_join (handler_joins env w1))%list /\
    (forall k,
       In k (started w1) ->
       mem_kind k (map fst (finished w1)) = false ->
       still_running env k = true ->
       In (ev_join k (Some 1%Z)) (trace (snd (run env s)))).
Proof.
  intros env s e w1 Htry.
  pose proof (try_raise_tracked env s) as Htracked.
  rewrite run_unfold, Htry. rewrite Htry in Htracked. simpl in Htracked.
  destruct (analyze_video_except_spec env e w1) as (w2 & Heq & H2 & H3 & _).
  rewrite Heq. cbn [fst snd].
  split; [reflexivity|]. split; [exact H3|]. split; [exact H2|].
  intros k Hin Hnot Halive. rewrite H2.
  apply in_or_app. right. apply in_or_app. right.
  unfold started_are_tracked in Htracked.
  rewrite forallb_forall in Htracked. specialize (Htracked k Hin).
  rewrite Hnot in Htracked. simpl in Htracked.
  apply existsb_exists in Htracked. destruct Htracked as (t & Ht & Hk).
  apply kind_eqb_eq in Hk. subst k.
  apply in_map_iff. exists t. split; [reflexivity|].
  unfold handler_joins. apply filter_In. split; [exact Ht|].
  unfold is_alive. rewrite (mem_kind_In _ _ Hin), Hnot, Halive. reflexivity.
Qed.

Lemma C4_failure_path_witness :
  fst (run stuck_start_env (demo_state FFMPEG_READER None))
  = Raise "can't start new thread"%string /\
  In (ev_join VIDEO (Some 1%Z))
     (trace (snd (run stuck_start_env (demo_state FFMPEG_READER None)))).
Proof.
  assert (H : analyze_video_try stuck_start_env
                (start_world stuck_start_env (demo_state FFMPEG_READER None))
              = (Raise "can't start new thread"%string,
                 snd (analyze_video_try stuck_start_env
                        (start_world stuck_start_env
                           (demo_state FFMPEG_READER None))))).
  { vm_compute. reflexivity. }
  destruct (C4_failure_path stuck_start_env (demo_state FFMPEG_READER None)
              _ _ H) as (H1 & _ & _ & H4).
  split; [exact H1|].
  apply (H4 VIDEO).
  - vm_compute. left. reflexivity.
  - vm_compute. reflexivity.
  - reflexivity.
Defined.

(** * Further properties *)

(** ** The monitor loop *)

Lemma add_events_frame (evs : list event) (w : World) :
  state (fold_left (fun w e => add_event e w) evs w) = state w /\
  queues (fold_left (fun w e => add_event e w) evs w) = queues w /\
  threads (fold_left (fun w e => add_event e w) evs w) = threads w /\
  started (fold_left (fun w e => add_event e w) evs w) = started w /\
  finished (fold_left (fun w e => add_event e w) evs w) = finished w /\
  log_thread_stop_event (fold_left (fun w e => add_event e w) evs w)
  = log_thread_stop_event w.
Proof.
  revert w. induction evs as [|e evs IH]; intro w; simpl.
  - repeat split; reflexivity.
  - destruct (IH (add_event e w)) as (H1 & H2 & H3 & H4 & H5 & H6).
    rewrite H1, H2, H3, H4, H5, H6. repeat split; reflexivity.
Qed.

Lemma iteration_frame (p : Platform) (o : Observation) (w : World) :
  state (snd (log_progress_iteration p o w)) = state w /\
  queues (snd (log_progress_iteration p o w)) = queues w /\
  threads (snd (log_progress_iteration p o w)) = threads w /\
  started (snd (log_progress_iteration p o w)) = started w /\
  finished (snd (log_progress_iteration p o w)) = finished w /\
  log_thread_stop_event (snd (log_progress_iteration p o w))
  = log_thread_stop_event w
    || (total_frames (video_info (state w)) <=? results_size o)%Z.
Proof.
  rewrite log_progress_iteration_spec. cbn [snd].
  destruct (update_ui (state w)) as [f|];
    [match goal with
     | |- context [fold_left ?g ?evs ?w0] =>
         destruct (add_events_frame evs w0) as (H1 & H2 & H3 & H4 & H5 & H6);
         rewrite H1, H2, H3, H4, H5, H6
     end|];
    destruct (total_frames (video_info (state w)) <=? results_size o)%Z;
    simpl; rewrite ?orb_true_r, ?orb_false_r; repeat split; reflexivity.
Qed.

Lemma log_progress_cons (p : Platform) (o : Observation)
    (rest : list Observation) (w : World) :
  log_progress p (o :: rest) w =
  if log_thread_stop_event w then (Return tt, w)
  else match log_progress_iteration p o w with
       | (Return _, w') => log_progress p rest w'
       | (Raise e, w') => (Raise e, w')
       | (Hang, w') => (Hang, w')
       end.
Proof.
  cbn [log_progress]. unfold bind, get.
  destruct (log_thread_stop_event w); reflexivity.
Qed.

(** X1.  Whatever the polls and whatever the sink does, the monitor
    returns and leaves the application state, the queues and the thread
    bookkeeping as they were; when the stop event is already set it does
    nothing at all. *)
Theorem X1_monitor_touches_nothing_but_the_stop_event :
  forall (p : Platform) (polls : list Observation) (w : World),
    fst (log_progress p polls w) = Return tt /\
    state (snd (log_progress p polls w)) = state w /\
    queues (snd (log_progress p polls w)) = queues w /\
    threads (snd (log_progress p polls w)) = threads w /\
    started (snd (log_progress p polls w)) = started w /\
    finished (snd (log_progress p polls w)) = finished w /\
    (log_thread_stop_event w = true ->
     snd (log_progress p polls w) = w).
Proof.
  intro p. induction polls as [|o rest IH]; intro w.
  - simpl. repeat split; reflexivity.
  - rewrite log_progress_cons.
    destruct (log_thread_stop_event w) eqn:Hstop.
    + simpl. repeat split; reflexivity.
    + pose proof (log_progress_iteration_returns p o w) as Hret.
      destruct (iteration_frame p o w) as (H1 & H2 & H3 & H4 & H5 & _).
      destruct (log_progress_iteration p o w) as [r w1].
      simpl in Hret, H1, H2, H3, H4, H5. subst r.
      destruct (IH w1) as (I0 & I1 & I2 & I3 & I4 & I5 & _).
      rewrite I0, I1, I2, I3, I4, I5, H1, H2, H3, H4, H5.
      repeat split; try reflexivity. intro; discriminate.
Qed.

(** X2.  When a poll finds at least [total_frames] items in the results
    queue, the monitor sets the stop event itself, still performs the rest
    of that iteration, and processes no later poll. *)
Theorem X2_monitor_stops_itself :
  forall (p : Platform) (o : Observation) (rest : list Observation)
         (w : World),
    log_thread_stop_event w = false ->
    (total_frames (video_info (state w)) <= results_size o)%Z ->
    log_progress p (o :: rest) w = log_progress_iteration p o w /\
    log_thread_stop_event (snd (log_progress p (o :: rest) w)) = true.
Proof.
  intros p o rest w Hstop Hdone.
  assert (Hset : log_thread_stop_event (snd (log_progress_iteration p o w))
                 = true).
  { destruct (iteration_frame p o w) as (_ & _ & _ & _ & _ & ->).
    apply Z.leb_le in Hdone. rewrite Hdone. apply orb_true_r. }
  assert (Heq : log_progress p (o :: rest) w = log_progress_iteration p o w).
  { rewrite log_progress_cons, Hstop.
    pose proof (log_progress_iteration_returns p o w) as Hret.
    destruct (log_progress_iteration p o w) as [r w1] eqn:E.
    simpl in Hret, Hset. subst r.
    destruct rest as [|o' rest']; [reflexivity|].
    rewrite log_progress_cons, Hset. reflexivity. }
  split; [exact Heq|]. rewrite Heq. exact Hset.
Qed.

Lemma X2_monitor_stops_itself_witness :
  log_thread_stop_event
    (snd (log_progress binary64 [last_poll; last_poll]
            (initial_world
               (with_video_info flat_video (demo_state FFMPEG_READER None)))))
  = true.
Proof.
  refine (proj2 (X2_monitor_stops_itself binary64 last_poll [last_poll]
                   (initial_world
                      (with_video_info flat_video
                         (demo_state FFMPEG_READER None)))
                   eq_refl _)).
  simpl. lia.
Defined.

(** ** The estimated time *)

(** X4.  With no completed unit, or with an elapsed time that is not
    positive, the ETA of the message is "Calculating...". *)
Theorem X4_eta_is_calculating_without_progress :
  forall (p : Platform) (s : AppState) (total completed : Z) (t : Q),
    completed = 0%Z \/ ~ 0 < t - start_time (analyze_task s) ->
    progress_message p s total completed t
    = Return {| process := "OBJECT_DETECTION";
                frames_processed := completed;
                pm_total_frames := total;
                eta := "Calculating..." |}.
Proof.
  intros p s total completed t H.
  unfold progress_message.
  rewrite processing_rate_returns, float_sub_sign.
  set (elapsed := t - start_time (analyze_task s)) in *.
  assert (Hrate : (if Qgtb elapsed 0
                   then float_div p (inject_Z completed)
                          (float_sub p t (start_time (analyze_task s)))
                   else Finite 0) = Finite 0).
  { destruct (Qgtb elapsed 0) eqn:E; [|reflexivity].
    destruct H as [-> | H]; [|apply Qgtb_true in E; contradiction].
    apply float_div_zero. }
  rewrite Hrate. cbn [obind].
  rewrite eta_seconds_returns. reflexivity.
Qed.

Lemma X4_eta_is_calculating_without_progress_witness :
  progress_message binary64 (reported_state flat_video) 3 0 102
  = Return {| process := "OBJECT_DETECTION";
              frames_processed := 0;
              pm_total_frames := 3;
              eta := "Calculating..." |}.
Proof.
  exact (X4_eta_is_calculating_without_progress
           binary64 (reported_state flat_video) 3 0 102
           (or_introl eq_refl)).
Defined.

(** X5.  When all units are complete (and there is at least one) the ETA
    of the message is "00:00:00". *)
Theorem X5_eta_is_zero_at_completion :
  forall (p : Platform) (s : AppState) (total : Z) (t : Q),
    (0 < total)%Z ->
    0 < t - start_time (analyze_task s) ->
    progress_message p s total total t
    = Return {| process := "OBJECT_DETECTION";
                frames_processed := total;
                pm_total_frames := total;
                eta := "00:00:00" |}.
Proof.
  intros p s total t Hc He.
  unfold progress_message.
  rewrite processing_rate_returns.
  apply Qgtb_true in He. rewrite <- (float_sub_sign p) in He.
  rewrite He. cbn [obind].
  pose proof (float_div_positive p total _ Hc He) as Hr.
  rewrite eta_seconds_returns, Hr, Z.sub_diag.
  assert (Hz : float_quot p (inject_Z 0)
                 (float_div p (inject_Z total)
                    (float_sub p t (start_time (analyze_task s))))
               = Finite 0).
  { unfold float_quot.
    destruct (float_div p (inject_Z total)
                (float_sub p t (start_time (analyze_task s))));
      try reflexivity.
    apply float_div_zero. }
  rewrite Hz. cbn [obind].
  unfold build_message, eta_string, gmtime.
  change (Qfloor 0) with 0%Z. rewrite gmtime_epoch. reflexivity.
Qed.

Lemma X5_eta_is_zero_at_completion_witness :
  progress_message binary64 (reported_state flat_video) 3 3 102
  = Return {| process := "OBJECT_DETECTION";
              frames_processed := 3;
              pm_total_frames := 3;
              eta := "00:00:00" |}.
Proof.
  refine (X5_eta_is_zero_at_completion
            binary64 (reported_state flat_video) 3 102 _ _).
  - lia.
  - vm_compute. reflexivity.
Defined.

(** ** The performance report *)

Lemma py_div_zero (x n : Q) : n == 0 -> py_div x n = Raise ZeroDivisionError.
Proof.
  intro H. unfold py_div. apply Qeq_bool_iff in H. rewrite H. reflexivity.
Qed.

Lemma py_div_cases (x n : Q) :
  (n == 0 /\ py_div x n = Raise ZeroDivisionError) \/
  (~ n == 0 /\ py_div x n = Return (x / n)).
Proof.
  destruct (Qeq_dec n 0) as [H|H].
  - left. split; [exact H | apply py_div_zero; exact H].
  - right. split; [exact H | apply py_div_nonzero; exact H].
Qed.

Lemma performance_report_failures :
  forall (sequential : bool) (s : AppState) (results : list item),
    (performance_report sequential s results = Raise ZeroDivisionError <->
     fps (video_info s) == 0 \/
     end_time (analyze_task s) - start_time (analyze_task s) == 0) /\
    (forall e, performance_report sequential s results = Raise e ->
               e = ZeroDivisionError) /\
    performance_report sequential s results <> Hang.
Proof.
  intros sq s results.
  destruct (Qeq_dec (fps (video_info s)) 0) as [Hf|Hf].
  - assert (E : performance_report sq s results = Raise ZeroDivisionError).
    { unfold performance_report. rewrite (py_div_zero _ _ Hf). reflexivity. }
    rewrite E. split; [split; auto|]. split; [|discriminate].
    intros e He. congruence.
  - destruct (Qeq_dec (end_time (analyze_task s) - start_time (analyze_task s))
                      0) as [Ht|Ht].
    + assert (E : performance_report sq s results = Raise ZeroDivisionError).
      { unfold performance_report. rewrite (py_div_nonzero _ _ Hf).
        cbn [obind]. rewrite (py_div_zero _ _ Ht). reflexivity. }
      rewrite E. split; [split; auto|]. split; [|discriminate].
      intros e He. congruence.
    + destruct (performance_report_returns sq s results Hf Ht) as [r ->].
      split; [split; [discriminate|intros [H|H]; contradiction]|].
      split; [intros e He; discriminate|discriminate].
Qed.

(** X7.  [log_performance] fails with [ZeroDivisionError] exactly when the
    frame rate of the video is zero or the end time equals the start time; it
    raises nothing else and always comes to an end. *)
Theorem X7_report_raises_exactly_on_a_zero_divisor :
  forall (sequential : bool) (s : AppState) (results : list item),
    (performance_report sequential s results = Raise ZeroDivisionError <->
     fps (video_info s) == 0 \/
     end_time (analyze_task s) - start_time (analyze_task s) == 0) /\
    (forall e, performance_report sequential s results = Raise e ->
               e = ZeroDivisionError) /\
    performance_report sequential s results <> Hang.
Proof. exact performance_report_failures. Qed.

Lemma map_o_Forall2 {A B} (f : A -> Outcome B) (l : list A) (ls : list B) :
  map_o f l = Return ls -> Forall2 (fun x y => f x = Return y) l ls.
Proof.
  revert ls. induction l as [|x l IH]; intros ls H; simpl in H.
  - inversion H. constructor.
  - destruct (f x) as [y| |] eqn:E; simpl in H; try discriminate.
    destruct (map_o f l) as [ys| |]; simpl in H; try discriminate.
    inversion H; subst. constructor; [exact E|apply IH; reflexivity].
Qed.

Lemma report_stages (sq : bool) (s : AppState) (results : list item)
    (r : Report) :
  performance_report sq s results = Return r ->
  map_o (stage_line (r_total_frames r))
    (if sq then filter is_duration (task_profile (analyze_task s))
     else map (fun e => (fst e, fst (snd e)))
            (aggregated_times (tasks_of (filter has_profile results))))
  = Return (r_stages r).
Proof.
  unfold performance_report. intro H.
  destruct (py_div _ (fps (video_info s))) as [d| |]; simpl in H;
    try discriminate.
  destruct (py_div _ (end_time (analyze_task s) - start_time (analyze_task s)))
    as [a| |]; simpl in H; try discriminate.
  destruct sq.
  - destruct (map_o _ _) as [st| |] eqn:E; simpl in H; try discriminate.
    inversion H; subst; simpl. exact E.
  - destruct (map_o _ _) as [st| |] eqn:E; simpl in H; try discriminate.
    inversion H; subst; simpl. exact E.
Qed.

Lemma div_if_positive_spec (x n y : Q) :
  div_if_positive x n = Return y ->
  (0 < n -> y = x / n) /\ (~ 0 < n -> y = 0).
Proof.
  unfold div_if_positive. destruct (Qgtb n 0) eqn:E; intro H.
  - rewrite (py_div_guarded _ _ E) in H. inversion H; subst.
    apply Qgtb_true in E. split; [reflexivity|contradiction].
  - inversion H; subst. apply Qgtb_false in E.
    split; [contradiction|reflexivity].
Qed.

Lemma stage_line_spec (n : Z) (entry : string * Q) (k : string) (a rt : Q) :
  stage_line n entry = Return (k, a, rt) ->
  k = fst entry /\
  ((0 < n)%Z -> a = snd entry / inject_Z n) /\
  ((n <= 0)%Z -> a = 0) /\
  (0 < a -> rt * a == 1) /\
  (~ 0 < a -> rt = 0).
Proof.
  unfold stage_line. intro H.
  destruct (div_if_positive (snd entry) (inject_Z n)) as [a'| |] eqn:Ea;
    simpl in H; try discriminate.
  destruct (div_if_positive 1 a') as [r'| |] eqn:Er; simpl in H;
    try discriminate.
  inversion H; subst.
  apply div_if_positive_spec in Ea. apply div_if_positive_spec in Er.
  destruct Ea as [Ea1 Ea2]. destruct Er as [Er1 Er2].
  split; [reflexivity|]. split; [|split; [|split]].
  - intro Hn. apply Ea1. rewrite Zlt_Qlt in Hn. exact Hn.
  - intro Hn. apply Ea2. intro Hlt. change 0 with (inject_Z 0) in Hlt.
    rewrite <- Zlt_Qlt in Hlt. lia.
  - intro Ha. rewrite (Er1 Ha). field. intro Hz. rewrite Hz in Ha.
    exact (Qlt_irrefl 0 Ha).
  - exact Er2.
Qed.


(** *** The aggregation over the units *)

Lemma aggregate_task_fold (task_profile : list (string * Q)) :
  forall acc,
    fold_left
      (fun a entry =>
         if is_duration entry then aggregate_add (fst entry) (snd entry) a
         else a)
      task_profile acc
    = agg_fold (filter is_duration task_profile) acc.
Proof.
  induction task_profile as [|e l IH]; intro acc; simpl.
  - reflexivity.
  - destruct (is_duration e); simpl; apply IH.
Qed.

Lemma aggregated_times_fold (tasks : list AnalyzeFrameTask) :
  forall acc,
    fold_left aggregate_task tasks acc = agg_fold (duration_entries tasks) acc.
Proof.
  unfold duration_entries.
  induction tasks as [|t l IH]; intro acc; simpl.
  - reflexivity.
  - rewrite IH. unfold aggregate_task. rewrite aggregate_task_fold.
    rewrite filter_app. unfold agg_fold. rewrite fold_left_app. reflexivity.
Qed.

Lemma aggregate_add_keys (k : string) (t : Q) (acc : list (string * (Q * Z))) :
  forall k', In k' (map fst (aggregate_add k t acc))
             <-> In k' (map fst acc) \/ k' = k.
Proof.
  induction acc as [|[k0 [tot cnt]] acc IH]; intro k'; simpl.
  - split; [intros [H|[]]; auto | intros [[]|H]; auto].
  - destruct (String.eqb k0 k) eqn:E; simpl.
    + apply String.eqb_eq in E. subst k0. intuition congruence.
    + rewrite IH. intuition congruence.
Qed.

Lemma aggregate_add_NoDup (k : string) (t : Q)
    (acc : list (string * (Q * Z))) :
  NoDup (map fst acc) -> NoDup (map fst (aggregate_add k t acc)).
Proof.
  induction acc as [|[k0 [tot cnt]] acc IH]; intro H; simpl.
  - constructor; [intros []|constructor].
  - inversion H as [|x l Hnot Hnd]; subst.
    destruct (String.eqb k0 k) eqn:E; simpl.
    + constructor; assumption.
    + constructor; [|apply IH; exact Hnd].
      rewrite aggregate_add_keys. intros [Hin|Heq]; [contradiction|].
      subst k0. rewrite String.eqb_refl in E. discriminate.
Qed.

Lemma aggregate_add_entries (k : string) (t : Q)
    (acc : list (string * (Q * Z))) :
  NoDup (map fst acc) ->
  forall k' tot' cnt',
    In (k', (tot', cnt')) (aggregate_add k t acc) ->
    (k' <> k /\ In (k', (tot', cnt')) acc) \/
    (k' = k /\
     ((exists tot cnt, In (k, (tot, cnt)) acc /\
                       tot' = tot + t /\ cnt' = (cnt + 1)%Z) \/
      (~ In k (map fst acc) /\ tot' = 0 + t /\ cnt' = (0 + 1)%Z))).
Proof.
  induction acc as [|[k0 [tot cnt]] acc IH]; intros Hnd k' tot' cnt' Hin;
    simpl in Hin.
  - destruct Hin as [Hin|[]]. inversion Hin; subst.
    right. split; [reflexivity|]. right. simpl. tauto.
  - inversion Hnd as [|x l Hnot Hnd']; subst.
    destruct (String.eqb k0 k) eqn:E.
    + apply String.eqb_eq in E. subst k0.
      destruct Hin as [Hin|Hin].
      * inversion Hin; subst. right. split; [reflexivity|]. left.
        exists tot, cnt. simpl. auto.
      * left. split; [|right; exact Hin].
        intro Heq. subst k'. apply Hnot.
        change k with (fst (k, (tot', cnt'))). apply in_map. exact Hin.
    + assert (Hne : k0 <> k).
      { intro Heq. subst k0. rewrite String.eqb_refl in E. discriminate. }
      destruct Hin as [Hin|Hin].
      * inversion Hin; subst. left. split; [exact Hne|left; reflexivity].
      * destruct (IH Hnd' k' tot' cnt' Hin) as [[H1 H2]|[H1 H2]].
        -- left. split; [exact H1|right; exact H2].
        -- right. split; [exact H1|].
           destruct H2 as [(tot0 & cnt0 & Ha & Hb & Hc)|(Ha & Hb & Hc)].
           ++ left. exists tot0, cnt0. simpl. auto.
           ++ right. simpl. split; [|auto]. intros [Hk|Hk]; auto.
Qed.

Lemma Qsum_snoc (l : list Q) (t : Q) : Qsum (l ++ [t]) == Qsum l + t.
Proof.
  induction l as [|x l IH]; simpl.
  - ring.
  - rewrite IH. ring.
Qed.

Lemma entries_of_nil (k : string) (seen : list (string * Q)) :
  ~ In k (map fst seen) -> entries_of k seen = [].
Proof.
  induction seen as [|[k0 t0] seen IH]; intro H; simpl.
  - reflexivity.
  - destruct (String.eqb k0 k) eqn:E.
    + apply String.eqb_eq in E. subst k0. exfalso. apply H. left. reflexivity.
    + apply IH. intro Hin. apply H. right. exact Hin.
Qed.

Lemma agg_inv_step (k : string) (t : Q) (acc : list (string * (Q * Z)))
    (seen : list (string * Q)) :
  agg_inv acc seen -> agg_inv (aggregate_add k t acc) (seen ++ [(k, t)]).
Proof.
  intros (Hnd & Hkeys & Hval). split; [|split].
  - apply aggregate_add_NoDup. exact Hnd.
  - intro k'. rewrite aggregate_add_keys, map_app, in_app_iff, Hkeys. simpl.
    intuition.
  - intros k' tot' cnt' Hin. unfold entries_of. rewrite filter_app.
    fold (entries_of k' seen). simpl.
    destruct (aggregate_add_entries k t acc Hnd k' tot' cnt' Hin)
      as [[Hne Hold]|[-> Hnew]].
    + assert (E : String.eqb k k' = false).
      { apply String.eqb_neq. intro Heq. apply Hne. symmetry. exact Heq. }
      rewrite E, app_nil_r. apply Hval. exact Hold.
    + rewrite String.eqb_refl, length_app, map_app. simpl.
      destruct Hnew as [(tot & cnt & Ha & -> & ->)|(Ha & -> & ->)].
      * destruct (Hval k tot cnt Ha) as [Hc Ht]. split.
        -- rewrite Hc. lia.
        -- rewrite Qsum_snoc, Ht. reflexivity.
      * rewrite Hkeys in Ha. rewrite (entries_of_nil k seen Ha). simpl.
        split; [reflexivity|ring].
Qed.

Lemma agg_inv_fold (l : list (string * Q)) :
  forall acc seen, agg_inv acc seen -> agg_inv (agg_fold l acc) (seen ++ l).
Proof.
  induction l as [|[k t] l IH]; intros acc seen H; simpl.
  - rewrite app_nil_r. exact H.
  - change (seen ++ (k, t) :: l)%list with (seen ++ [(k, t)] ++ l)%list.
    rewrite app_assoc. apply IH. apply agg_inv_step. exact H.
Qed.

Lemma aggregated_times_inv (tasks : list AnalyzeFrameTask) :
  agg_inv (aggregated_times tasks) (duration_entries tasks).
Proof.
  unfold aggregated_times. rewrite aggregated_times_fold.
  apply (agg_inv_fold (duration_entries tasks) [] []).
  split; [constructor|]. split; [tauto|]. intros k tot cnt [].
Qed.

(** X8.  The aggregate of the concurrent report has one entry per
    [_duration] key that occurs in the profile of some unit and no other;
    the entry holds the number of occurrences of the key and the sum of the
    durations recorded under it. *)
Theorem X8_aggregated_times_sums_per_key :
  forall tasks : list AnalyzeFrameTask,
    NoDup (map fst (aggregated_times tasks)) /\
    (forall k, In k (map fst (aggregated_times tasks))
               <-> In k (map fst (duration_entries tasks))) /\
    (forall k tot cnt,
       In (k, (tot, cnt)) (aggregated_times tasks) ->
       cnt = Z.of_nat (List.length (entries_of k (duration_entries tasks))) /\
       tot == Qsum (map snd (entries_of k (duration_entries tasks)))).
Proof. intro tasks. exact (aggregated_times_inv tasks). Qed.

(** *** The lines of the report *)

Lemma tasks_of_filter (results : list item) :
  tasks_of (filter has_profile results) = tasks_of results.
Proof.
  induction results as [|[t|] l IH]; simpl; [reflexivity| |exact IH].
  rewrite IH. reflexivity.
Qed.

Lemma report_fields (sq : bool) (s : AppState) (results : list item)
    (r : Report) :
  performance_report sq s results = Return r ->
  let n := Z.of_nat (List.length (filter has_profile results)) in
  r_total_frames r = n /\
  r_video_duration r = inject_Z n / fps (video_info s) /\
  r_avg_processing_fps r
  = inject_Z n / (end_time (analyze_task s) - start_time (analyze_task s)) /\
  r_realtime_percentage r = r_avg_processing_fps r / 60 * 100.
Proof.
  unfold performance_report. intro H.
  destruct (py_div_cases
              (inject_Z (Z.of_nat (List.length (filter has_profile results))))
              (fps (video_info s))) as [[_ E]|[_ E]]; rewrite E in H;
    cbn [obind] in H; try discriminate.
  destruct (py_div_cases
              (inject_Z (Z.of_nat (List.length (filter has_profile results))))
              (end_time (analyze_task s) - start_time (analyze_task s)))
    as [[_ E']|[_ E']]; rewrite E' in H; cbn [obind] in H; try discriminate.
  destruct (if sq then _ else _) as [st| |]; cbn [obind] in H;
    try discriminate.
  inversion H; subst; simpl. repeat split; reflexivity.
Qed.

Lemma Forall2_In_r {A B} (R : A -> B -> Prop) (l : list A) (ls : list B)
    (y : B) :
  Forall2 R l ls -> In y ls -> exists x, In x l /\ R x y.
Proof.
  induction 1 as [|x y' l ls HR HF IH]; intro Hin.
  - destruct Hin.
  - destruct Hin as [<-|Hin].
    + exists x. split; [left; reflexivity|exact HR].
    + destruct (IH Hin) as (x0 & H1 & H2). exists x0.
      split; [right; exact H1|exact H2].
Qed.

Lemma stage_lines_keys (n : Z) (l : list (string * Q))
    (ls : list (string * Q * Q)) :
  Forall2 (fun x y => stage_line n x = Return y) l ls ->
  map line_key ls = map fst l.
Proof.
  induction 1 as [|x [[k a] rt] l ls HR HF IH]; simpl.
  - reflexivity.
  - destruct (stage_line_spec n x k a rt HR) as [-> _].
    rewrite IH. reflexivity.
Qed.

Lemma is_duration_key (k : string) (a b : Q) :
  is_duration (k, a) = is_duration (k, b).
Proof. reflexivity. Qed.

(** X9.  A report that is produced has one line per [_duration] key, in
    order: the keys of the run profile in sequential mode, the distinct keys
    of the units' profiles in concurrent mode; other keys give no line. *)
Theorem X9_report_has_one_line_per_duration_key :
  forall (sequential : bool) (s : AppState) (results : list item)
         (r : Report),
    performance_report sequential s results = Return r ->
    map line_key (r_stages r)
    = (if sequential
       then map fst (filter is_duration (task_profile (analyze_task s)))
       else map fst (aggregated_times (tasks_of results))) /\
    (sequential = false -> NoDup (map line_key (r_stages r))) /\
    (forall l, In l (r_stages r) ->
               endswith (line_key l) "_duration" = true).
Proof.
  intros sq s results r Hr.
  pose proof (map_o_Forall2 _ _ _ (report_stages sq s results r Hr)) as HF.
  pose proof (stage_lines_keys _ _ _ HF) as Hkeys.
  rewrite tasks_of_filter in Hkeys, HF.
  assert (Hk : map line_key (r_stages r)
               = (if sq
                  then map fst (filter is_duration
                                  (task_profile (analyze_task s)))
                  else map fst (aggregated_times (tasks_of results)))).
  { rewrite Hkeys. destruct sq; [reflexivity|].
    rewrite map_map. reflexivity. }
  split; [exact Hk|]. split.
  - intros ->. rewrite Hk.
    apply (aggregated_times_inv (tasks_of results)).
  - intros l Hin.
    assert (Hin' : In (line_key l) (map line_key (r_stages r)))
      by (apply in_map; exact Hin).
    rewrite Hk in Hin'. destruct sq.
    + apply in_map_iff in Hin'. destruct Hin' as ([k t] & Hfst & Hf).
      apply filter_In in Hf. destruct Hf as [_ Hd]. simpl in Hfst.
      subst k. exact Hd.
    + apply (aggregated_times_inv (tasks_of results)) in Hin'.
      apply in_map_iff in Hin'. destruct Hin' as ([k t] & Hfst & Hf).
      unfold duration_entries in Hf. apply filter_In in Hf.
      destruct Hf as [_ Hd]. simpl in Hfst. subst k. exact Hd.
Qed.

(** X10.  On every line of the report the rate is the reciprocal of the
    average when the average is positive and zero otherwise; with no unit
    counted, average and rate are zero. *)
Theorem X10_report_line_rate_is_reciprocal_of_average :
  forall (sequential : bool) (s : AppState) (results : list item)
         (r : Report) (l : string * Q * Q),
    performance_report sequential s results = Return r ->
    In l (r_stages r) ->
    (0 < line_average l -> line_rate l * line_average l == 1) /\
    (~ 0 < line_average l -> line_rate l = 0) /\
    ((r_total_frames r <= 0)%Z -> line_average l = 0 /\ line_rate l = 0).
Proof.
  intros sq s results r [[k a] rt] Hr Hin.
  pose proof (map_o_Forall2 _ _ _ (report_stages sq s results r Hr)) as HF.
  destruct (Forall2_In_r _ _ _ _ HF Hin) as (x & _ & Hx).
  destruct (stage_line_spec _ _ _ _ _ Hx) as (_ & _ & H0 & H1 & H2).
  unfold line_average, line_rate. simpl.
  split; [exact H1|]. split; [exact H2|].
  intro Hn. pose proof (H0 Hn) as Ha. split; [exact Ha|].
  apply H2. rewrite Ha. apply Qlt_irrefl.
Qed.

(** X11.  With at least one unit counted, the average of a line is the
    stage's total time divided by the number of units: the total of the run
    profile in sequential mode, the sum over all units in concurrent mode. *)
Theorem X11_report_average_is_total_time_over_units :
  forall (sequential : bool) (s : AppState) (results : list item)
         (r : Report) (l : string * Q * Q),
    performance_report sequential s results = Return r ->
    In l (r_stages r) ->
    (0 < r_total_frames r)%Z ->
    (sequential = true ->
     exists t, In (line_key l, t) (task_profile (analyze_task s)) /\
               line_average l = t / inject_Z (r_total_frames r)) /\
    (sequential = false ->
     line_average l
     == Qsum (map snd (entries_of (line_key l)
                         (duration_entries (tasks_of results))))
        / inject_Z (r_total_frames r)).
Proof.
  intros sq s results r [[k a] rt] Hr Hin Hn.
  pose proof (map_o_Forall2 _ _ _ (report_stages sq s results r Hr)) as HF.
  destruct (Forall2_In_r _ _ _ _ HF Hin) as ([k0 t0] & Hx & Hline).
  destruct (stage_line_spec _ _ _ _ _ Hline) as (Hk & Ha & _).
  simpl in Hk. subst k0. specialize (Ha Hn). simpl in Ha.
  unfold line_key, line_average. simpl. split.
  - intros ->. exists t0. split; [|exact Ha].
    apply filter_In in Hx. apply Hx.
  - intros ->. rewrite tasks_of_filter in Hx.
    apply in_map_iff in Hx. destruct Hx as ([k1 [tot cnt]] & Heq & Hagg).
    simpl in Heq. inversion Heq; subst.
    destruct (aggregated_times_inv (tasks_of results)) as (_ & _ & Hval).
    destruct (Hval _ _ _ Hagg) as [_ Htot].
    rewrite Htot. reflexivity.
Qed.

(** X12.  When the results queue holds no unit (it is empty or holds
    sentinels only) and the report is produced, every figure of the report
    is zero, and the concurrent report has no line. *)
Theorem X12_report_of_no_units_is_all_zero :
  forall (sequential : bool) (s : AppState) (results : list item)
         (r : Report),
    (forall it, In it results -> it = None) ->
    performance_report sequential s results = Return r ->
    r_total_frames r = 0%Z /\
    r_video_duration r == 0 /\
    r_avg_processing_fps r == 0 /\
    r_realtime_percentage r == 0 /\
    (forall l, In l (r_stages r) -> line_average l = 0 /\ line_rate l = 0) /\
    (sequential = false -> r_stages r = []).
Proof.
  intros sq s results r Hnone Hr.
  assert (Hf : filter has_profile results = []).
  { clear Hr. induction results as [|it l IH]; [reflexivity|].
    simpl. rewrite (Hnone it (or_introl eq_refl)). simpl.
    apply IH. intros it' Hin. apply Hnone. right. exact Hin. }
  destruct (report_fields sq s results r Hr) as (Hn & Hd & Ha & Hp).
  rewrite Hf in Hn, Hd, Ha. simpl in Hn, Hd, Ha.
  split; [exact Hn|]. split; [rewrite Hd; unfold Qdiv; ring|].
  assert (Ha0 : r_avg_processing_fps r == 0)
    by (rewrite Ha; unfold Qdiv; ring).
  split; [exact Ha0|]. split; [rewrite Hp, Ha0; reflexivity|]. split.
  - intros [[k a] rt] Hin.
    pose proof (map_o_Forall2 _ _ _ (report_stages sq s results r Hr)) as HF.
    destruct (Forall2_In_r _ _ _ _ HF Hin) as (x & _ & Hx).
    destruct (stage_line_spec _ _ _ _ _ Hx) as (_ & _ & H0 & _ & H2).
    unfold line_average, line_rate. simpl.
    assert (Ha' : a = 0) by (apply H0; rewrite Hn; lia).
    split; [exact Ha'|]. apply H2. rewrite Ha'. apply Qlt_irrefl.
  - intros ->.
    pose proof (report_stages false s results r Hr) as Hst.
    cbv beta iota in Hst. rewrite Hf in Hst. simpl in Hst.
    inversion Hst. reflexivity.
Qed.

Lemma X9_report_has_one_line_per_duration_key_witness :
  exists r,
    performance_report false (reported_state flat_video) two_units = Return r
    /\ map line_key (r_stages r)
       = ["video_duration"%string; "yolo_duration"%string].
Proof.
  eassert (E : performance_report false (reported_state flat_video) two_units
               = Return _).
  { vm_compute. reflexivity. }
  eexists. split; [exact E|].
  exact (proj1 (X9_report_has_one_line_per_duration_key
                  false (reported_state flat_video) two_units _ E)).
Defined.

Lemma X10_report_line_rate_is_reciprocal_of_average_witness :
  exists r,
    performance_report false (reported_state flat_video) two_units = Return r
    /\ Forall (fun l => 0 < line_average l ->
                        line_rate l * line_average l == 1) (r_stages r).
Proof.
  eassert (E : performance_report false (reported_state flat_video) two_units
               = Return _).
  { vm_compute. reflexivity. }
  eexists. split; [exact E|].
  apply Forall_forall. intros l Hin.
  exact (proj1 (X10_report_line_rate_is_reciprocal_of_average
                  false (reported_state flat_video) two_units _ l E Hin)).
Defined.

Lemma X11_report_average_is_total_time_over_units_witness :
  exists r,
    performance_report false (reported_state flat_video) two_units = Return r
    /\ Forall (fun l =>
                 line_average l
                 == Qsum (map snd (entries_of (line_key l)
                                     (duration_entries (tasks_of two_units))))
                    / inject_Z (r_total_frames r)) (r_stages r).
Proof.
  eassert (E : performance_report false (reported_state flat_video) two_units
               = Return _).
  { vm_compute. reflexivity. }
  eexists. split; [exact E|].
  apply Forall_forall. intros l Hin.
  refine (proj2 (X11_report_average_is_total_time_over_units
                   false (reported_state flat_video) two_units _ l E Hin _)
                eq_refl).
  simpl. lia.
Defined.

Lemma X12_report_of_no_units_is_all_zero_witness :
  exists r,
    performance_report true (reported_state flat_video) [None] = Return r
    /\ r_total_frames r = 0%Z.
Proof.
  eassert (E : performance_report true (reported_state flat_video) [None]
               = Return _).
  { vm_compute. reflexivity. }
  eexists. split; [exact E|].
  refine (proj1 (X12_report_of_no_units_is_all_zero
                   true (reported_state flat_video) [None] _ _ E)).
  intros it [<-|[]]. reflexivity.
Defined.

(** ** The orchestrator: exits, joins and the state *)

Lemma performance_report_never_hangs (sq : bool) (s : AppState)
    (results : list item) :
  performance_report sq s results <> Hang.
Proof.
  unfold performance_report.
  destruct (py_div_cases
              (inject_Z (Z.of_nat (List.length (filter has_profile results))))
              (fps (video_info s))) as [[_ ->]|[_ ->]]; [discriminate|].
  cbn [obind].
  destruct (py_div_cases
              (inject_Z (Z.of_nat (List.length (filter has_profile results))))
              (end_time (analyze_task s) - start_time (analyze_task s)))
    as [[_ ->]|[_ ->]]; [discriminate|].
  cbn [obind].
  destruct sq.
  - destruct (map_o_stage_line_returns
                (Z.of_nat (List.length (filter has_profile results)))
                (filter is_duration (task_profile (analyze_task s))))
      as [ls ->]. discriminate.
  - destruct (map_o_stage_line_returns
                (Z.of_nat (List.length (filter has_profile results)))
                (map (fun e => (fst e, fst (snd e)))
                   (aggregated_times (tasks_of (filter has_profile results)))))
      as [ls ->]. discriminate.
Qed.

(** X13.  Whenever [analyze_video] comes to an end, by a return or by an
    instance of [Exception], the stop event of the monitor is set. *)
Theorem X13_every_exit_sets_the_stop_event :
  forall (env : Env) (s : AppState),
    fst (run env s) <> Hang ->
    log_thread_stop_event (snd (run env s)) = true.
Proof.
  intros env s.
  destruct env as [sq qmax folder probe t0 t1 prof qinit winit mon
                     tstart wrun alive].
  destruct s as [path reader vi task ui].
  focus_run. settle.
  repeat step; leaf; intro H; first [reflexivity | exfalso; apply H; reflexivity].
Qed.

Lemma X13_every_exit_sets_the_stop_event_witness :
  log_thread_stop_event
    (snd (run (demo_env false flat_video) (demo_state FFMPEG_READER None)))
  = true.
Proof.
  apply X13_every_exit_sets_the_stop_event.
  vm_compute. discriminate.
Defined.

(** X14.  A [join(timeout=1)] is made only in concurrent mode after a
    [start()] has failed: in sequential mode, and whenever every [start()]
    succeeds, the trace has no bounded join, whatever else goes wrong. *)
Theorem X14_bounded_joins_need_a_failed_start :
  forall (env : Env) (s : AppState),
    SEQUENTIAL_MODE env = true \/ (forall k, thread_start_fails env k = None) ->
    forallb (fun ev => negb (is_bounded_join ev)) (trace (snd (run env s)))
    = true.
Proof.
  intros env s H.
  destruct env as [sq qmax folder probe t0 t1 prof qinit winit mon
                     tstart wrun alive].
  destruct s as [path reader vi task ui].
  simpl in H. focus_run.
  destruct H as [-> | H].
  - settle. repeat step; leaf; reflexivity.
  - settle.
    repeat (first [progress (rewrite ?H); settle | step]); leaf; reflexivity.
Qed.

Lemma X14_bounded_joins_need_a_failed_start_witness :
  forallb (fun ev => negb (is_bounded_join ev))
    (trace (snd (run (failing_env false) (demo_state FFMPEG_READER None))))
  = true.
Proof.
  apply X14_bounded_joins_need_a_failed_start.
  right. intro k. reflexivity.
Defined.

(** X15.  In concurrent mode the orchestrator can block only in a
    [join()]: when every active worker terminates on the items it receives
    (the decoder on none, each later stage on what its upstream neighbour
    pushed), the call comes to an end. *)
Theorem X15_concurrent_run_hangs_only_in_a_join :
  forall (env : Env) (s : AppState),
    SEQUENTIAL_MODE env = false ->
    (forall v k r,
       set_video_info env (video_path s) = inr v ->
       In (k, r)
          (stage_runs env (pipeline_state env s v)
             (String.eqb (resolved_reader (video_reader s) v) OPENGL_READER)) ->
       terminates r = true) ->
    fst (run env s) <> Hang.
Proof.
  intros env s Hseq H.
  destruct env as [sq qmax folder probe t0 t1 prof qinit winit mon
                     tstart wrun alive].
  destruct s as [path reader vi task ui].
  unfold pipeline_state, stage_runs, resolved_reader in H.
  simpl in Hseq, H. subst sq. focus_run. settle.
  destruct (folder path); settle; [leaf; discriminate|].
  destruct (probe path) as [e|v] eqn:Hprobe; settle; [leaf; discriminate|].
  pose proof (fun k r => H v k r eq_refl) as Hterm. clear H.
  destruct (String.eqb reader OPENGL_READER) eqn:Hreader;
    [apply String.eqb_eq in Hreader; subst reader|]; settle.
  - destruct (is_vr v) eqn:Hvr; destruct (is_fisheye v) eqn:Hfe;
      cbn [negb orb] in Hterm;
      rewrite ?ffmpeg_is_not_opengl, ?String.eqb_refl in Hterm;
      settle.
    all: repeat (first [ stage_terminates Hterm | step ]).
    all: leaf; try discriminate.
    all: exfalso;
      match goal with
      | Hr : performance_report _ _ _ = Hang |- _ =>
          exact (performance_report_never_hangs _ _ _ Hr)
      end.
  - rewrite ?Hreader in *. settle.
    all: repeat (first [ stage_terminates Hterm
                       | progress (rewrite ?Hreader); settle
                       | step ]).
    all: leaf; try discriminate.
    all: exfalso;
      match goal with
      | Hr : performance_report _ _ _ = Hang |- _ =>
          exact (performance_report_never_hangs _ _ _ Hr)
      end.
Qed.

Lemma X15_concurrent_run_hangs_only_in_a_join_witness :
  fst (run (blocking_env false flat_video) (demo_state FFMPEG_READER None))
  <> Hang.
Proof.
  apply X15_concurrent_run_hangs_only_in_a_join.
  - reflexivity.
  - intros v k r Hv H. injection Hv as <-. vm_compute in H.
    repeat (destruct H as [H | H]; [injection H as <- <-; reflexivity|]).
    contradiction.
Defined.

(** X16.  When the probed video has frame rate zero, or the clock reads the
    same at the start and at the end of the run, no call returns: where the
    stages succeed, the report raises [ZeroDivisionError]. *)
Theorem X16_zero_frame_rate_or_zero_duration_never_returns :
  forall (env : Env) (s : AppState) (v : VideoInfo) (r : list item),
    set_video_info env (video_path s) = inr v ->
    fps v == 0 \/ clock_end env - clock_start env == 0 ->
    fst (run env s) <> Return r.
Proof.
  intros env s v r Hprobe Hzero.
  destruct env as [sq qmax folder probe t0 t1 prof qinit winit mon
                     tstart wrun alive].
  destruct s as [path reader vi task ui].
  simpl in Hprobe, Hzero.
  assert (Hrep : forall st results rep,
             video_info st = v ->
             end_time (analyze_task st) = t1 ->
             start_time (analyze_task st) = t0 ->
             performance_report sq st results = Return rep -> False).
  { intros st results rep Hv He Hs Hr.
    destruct (performance_report_failures sq st results)
      as [[_ Hraise] _].
    rewrite Hv, He, Hs in Hraise. rewrite (Hraise Hzero) in Hr.
    discriminate. }
  focus_run. settle.
  destruct (folder path); settle; [leaf; discriminate|].
  rewrite Hprobe. settle.
  repeat step; leaf; try discriminate;
    exfalso;
    match goal with
    | Hr : performance_report _ ?st ?res = Return ?rep |- _ =>
        exact (Hrep st res rep eq_refl eq_refl eq_refl Hr)
    end.
Qed.

Lemma X16_zero_frame_rate_or_zero_duration_never_returns_witness :
  fst (run (demo_env false still_video) (demo_state FFMPEG_READER None))
  <> Return [].
Proof.
  refine (X16_zero_frame_rate_or_zero_duration_never_returns
            (demo_env false still_video) (demo_state FFMPEG_READER None)
            still_video [] eq_refl _).
  left. reflexivity.
Defined.

(** The stages succeed on the video without a frame rate, and the call
    raises. *)
Example zero_frame_rate_demo :
  fst (run (demo_env false still_video) (demo_state FFMPEG_READER None))
  = Raise ZeroDivisionError.
Proof. vm_compute. reflexivity. Qed.

(** X17.  [analyze_video] never changes the video path or the sink of the
    state; it leaves the reader as it was when another reader than the
    conversion reader was requested, and when the conversion reader was
    requested for a VR video that is not fisheye. *)
Theorem X17_reader_kept_when_not_overridden :
  forall (env : Env) (s : AppState),
    video_path (state (snd (run env s))) = video_path s /\
    update_ui (state (snd (run env s))) = update_ui s /\
    (video_reader s <> OPENGL_READER ->
     video_reader (state (snd (run env s))) = video_reader s) /\
    (forall v,
       check_create_output_folder env (video_path s) = None ->
       set_video_info env (video_path s) = inr v ->
       is_vr v = true -> is_fisheye v = false ->
       video_reader (state (snd (run env s))) = video_reader s).
Proof.
  intros env s.
  destruct env as [sq qmax folder probe t0 t1 prof qinit winit mon
                     tstart wrun alive].
  destruct s as [path reader vi task ui].
  focus_run. settle.
  repeat step; leaf;
    (split; [reflexivity|]); (split; [reflexivity|]);
    (split;
     [intro Hne;
      first [reflexivity
            | exfalso; apply Hne; apply String.eqb_eq; assumption]
     |intros v0 Hf Hp Hvr Hfe;
      first [reflexivity | congruence]]).
Qed.


(** X23.  When the output folder cannot be prepared or the probe fails,
    the call raises that error, the state is untouched, and no queue,
    worker or monitor was created: the trace holds the start message, the
    setup steps, the error message and the stop signal only. *)
Theorem X23_setup_failure_leaves_the_pipeline_unbuilt :
  forall (env : Env) (s : AppState) (e : exn),
    check_create_output_folder env (video_path s) = Some e \/
    (check_create_output_folder env (video_path s) = None /\
     set_video_info env (video_path s) = inl e) ->
    fst (run env s) = Raise e /\
    state (snd (run env s)) = s /\
    filter is_pipeline_event (trace (snd (run env s))) = [] /\
    last (trace (snd (run env s))) ev_monitor_start = ev_stop_set.
Proof.
  intros env s e H.
  destruct env as [sq qmax folder probe t0 t1 prof qinit winit mon
                     tstart wrun alive].
  destruct s as [path reader vi task ui].
  simpl in H. focus_run. settle.
  destruct H as [H | [H1 H2]].
  - rewrite H. settle. leaf. repeat split; reflexivity.
  - rewrite H1. settle. rewrite H2. settle. leaf. repeat split; reflexivity.
Qed.

Lemma X23_setup_failure_leaves_the_pipeline_unbuilt_witness :
  fst (run no_folder_env (demo_state OPENGL_READER None))
  = Raise "permission denied"%string /\
  state (snd (run no_folder_env (demo_state OPENGL_READER None)))
  = demo_state OPENGL_READER None.
Proof.
  destruct (X23_setup_failure_leaves_the_pipeline_unbuilt
              no_folder_env (demo_state OPENGL_READER None)
              "permission denied"%string (or_introl eq_refl))
    as (H1 & H2 & _).
  split; [exact H1 | exact H2].
Defined.

(** ** The orchestrator: what a returning run leaves behind *)

(** X18.  In a call that returns with a sink present, the orchestrator
    has itself called the sink exactly once, as the last action of its own
    thread, with the message "Done" in which both the processed and the
    total count are the frame count of the probed video, whatever the
    number of results.  The calls that the monitor thread makes to the same
    sink are those of [log_progress], and are not counted here. *)
Theorem X18_returning_run_ends_with_the_done_message :
  forall (env : Env) (s : AppState) (v : VideoInfo) (r : list item)
         (f : ProgressMessage -> option exn),
    set_video_info env (video_path s) = inr v ->
    update_ui s = Some f ->
    fst (run env s) = Return r ->
    let m := {| process := "OBJECT_DETECTION";
                frames_processed := total_frames v;
                pm_total_frames := total_frames v;
                eta := "Done" |} in
    filter is_update_ui (trace (snd (run env s))) = [ev_update_ui m] /\
    last (trace (snd (run env s))) ev_stop_set = ev_update_ui m /\
    f m = None.
Proof.
  intros env s v r f Hprobe Hui.
  destruct env as [sq qmax folder probe t0 t1 prof qinit winit mon
                     tstart wrun alive].
  destruct s as [path reader vi task ui].
  simpl in Hprobe, Hui. subst ui.
  focus_run. settle.
  destruct (folder path); settle; [leaf; discriminate|].
  rewrite Hprobe. settle.
  repeat step; leaf; intro H; try discriminate H;
    (split; [reflexivity|split; [reflexivity|assumption]]).
Qed.

Lemma X18_returning_run_ends_with_the_done_message_witness :
  last (trace (snd (run (demo_env false flat_video)
                      (demo_state FFMPEG_READER (Some quiet_sink)))))
       ev_stop_set
  = ev_update_ui {| process := "OBJECT_DETECTION";
                    frames_processed := 2;
                    pm_total_frames := 2;
                    eta := "Done" |}.
Proof.
  assert (H : fst (run (demo_env false flat_video)
                     (demo_state FFMPEG_READER (Some quiet_sink)))
              = Return (queue (queues
                                 (snd (run (demo_env false flat_video)
                                         (demo_state FFMPEG_READER
                                            (Some quiet_sink))))
                                 result_q))).
  { vm_compute. reflexivity. }
  exact (proj1 (proj2 (X18_returning_run_ends_with_the_done_message
                         (demo_env false flat_video)
                         (demo_state FFMPEG_READER (Some quiet_sink))
                         flat_video _ quiet_sink eq_refl eq_refl H))).
Defined.



Lemma full_false_bound (m : Z) (l : list item) :
  full {| maxsize := m; queue := l |} = false ->
  (0 < m)%Z -> (Z.of_nat (List.length l) < m)%Z.
Proof.
  unfold full. simpl. intros H Hm.
  apply Z.ltb_lt in Hm. rewrite Hm in H. simpl in H.
  apply Z.leb_gt in H. exact H.
Qed.



(** X21.  With bounded queues, a sequential call returns only if the
    queues the orchestrator puts a sentinel into had room for it: at the end
    [opengl_q] and [analysis_q] hold at most [QUEUE_MAXSIZE] items, the
    sentinel included. *)
Theorem X21_sequential_run_fits_the_queues :
  forall (env : Env) (s : AppState) (r : list item),
    SEQUENTIAL_MODE env = true ->
    (0 < QUEUE_MAXSIZE env)%Z ->
    fst (run env s) = Return r ->
    let q := queues (snd (run env s)) in
    (Z.of_nat (List.length (queue (q opengl_q))) <= QUEUE_MAXSIZE env)%Z /\
    (Z.of_nat (List.length (queue (q analysis_q))) <= QUEUE_MAXSIZE env)%Z.
Proof.
  intros env s r Hseq Hmax.
  destruct env as [sq qmax folder probe t0 t1 prof qinit winit mon
                     tstart wrun alive].
  destruct s as [path reader vi task ui].
  simpl in Hseq, Hmax |- *. subst sq.
  focus_run. settle.
  repeat step; leaf; intro H; try discriminate H.
  all: repeat match goal with
              | Hf : full _ = false |- _ =>
                  apply full_false_bound in Hf; [|exact Hmax]
              end.
  all: rewrite ?length_app in *; cbn [List.length app] in *; lia.
Qed.

Lemma X21_sequential_run_fits_the_queues_witness :
  (Z.of_nat
     (List.length
        (queue (queues (snd (run (demo_env true flat_video)
                               (demo_state FFMPEG_READER None)))
                  analysis_q)))
   <= 8)%Z.
Proof.
  assert (H : fst (run (demo_env true flat_video)
                     (demo_state FFMPEG_READER None))
              = Return (queue (queues
                                 (snd (run (demo_env true flat_video)
                                         (demo_state FFMPEG_READER None)))
                                 result_q))).
  { vm_compute. reflexivity. }
  refine (proj2 (X21_sequential_run_fits_the_queues
                   (demo_env true flat_video) (demo_state FFMPEG_READER None)
                   _ eq_refl _ H)).
  simpl. lia.
Defined.

(** X22.  In a sequential call that returns, the stages run strictly one
    after another in pipeline order: each worker is started, joined without
    timeout, and followed by one sentinel put, before the next is started,
    and nothing else is started, joined, queried or put. *)
Theorem X22_sequential_stages_run_one_after_another :
  forall (env : Env) (s : AppState) (v : VideoInfo) (r : list item),
    SEQUENTIAL_MODE env = true ->
    set_video_info env (video_path s) = inr v ->
    fst (run env s) = Return r ->
    filter is_step_event (trace (snd (run env s)))
    = flat_map (fun kq => [ev_start (fst kq); ev_join (fst kq) None;
                           ev_put (snd kq) None])
        (sequential_steps
           (String.eqb (resolved_reader (video_reader s) v) OPENGL_READER)).
Proof.
  intros env s v r Hseq Hprobe.
  destruct env as [sq qmax folder probe t0 t1 prof qinit winit mon
                     tstart wrun alive].
  destruct s as [path reader vi task ui].
  simpl in Hseq, Hprobe |- *. subst sq.
  unfold resolved_reader.
  focus_run. settle.
  destruct (folder path); settle; [leaf; discriminate|].
  rewrite Hprobe. settle.
  destruct (String.eqb reader OPENGL_READER) eqn:Hreader;
    [apply String.eqb_eq in Hreader; subst reader|]; settle.
  - destruct (is_vr v) eqn:Hvr; destruct (is_fisheye v) eqn:Hfe; settle.
    all: repeat step; leaf; intro H; try discriminate H.
    all: rewrite ?ffmpeg_is_not_opengl, ?String.eqb_refl; reflexivity.
  - rewrite ?Hreader. settle.
    repeat (first [rewrite Hreader; settle | step]); leaf; intro H;
      try discriminate H.
    all: rewrite ?Hreader; reflexivity.
Qed.

Lemma X22_sequential_stages_run_one_after_another_witness :
  filter is_step_event
    (trace (snd (run (demo_env true flat_video)
                   (demo_state FFMPEG_READER None))))
  = [ev_start VIDEO; ev_join VIDEO None; ev_put opengl_q None;
     ev_start YOLO; ev_join YOLO None; ev_put analysis_q None;
     ev_start YOLO_ANALYSIS; ev_join YOLO_ANALYSIS None;
     ev_put result_q None].
Proof.
  assert (H : fst (run (demo_env true flat_video)
                     (demo_state FFMPEG_READER None))
              = Return (queue (queues
                                 (snd (run (demo_env true flat_video)
                                         (demo_state FFMPEG_READER None)))
                                 result_q))).
  { vm_compute. reflexivity. }
  exact (X22_sequential_stages_run_one_after_another
           (demo_env true flat_video) (demo_state FFMPEG_READER None)
           flat_video _ eq_refl eq_refl H).
Defined.
